(** * Cell charging dashboard: the telemetry generator and the evaluator

    A shallow embedding of [mian.py]: [generate_cell_data] (the sampler of
    one eight-cell snapshot) and the part of [main] that derives the system
    metrics, applies the process filter and raises the alerts.

    Modelling choices.
    - Python [int]s are [Z].  Python [float]s are exact rationals kept in
      lowest terms ([Q] after [Qred]), plus a [NaN]; binary rounding of the
      arithmetic is not modelled, decimal rounding by [round] is.
    - The [random] module is an entropy tape of raw draws: every result the
      library can return is obtained from some tape, and theorems quantify
      over all tapes.
    - [datetime.now()] is a tape of successive clock readings.
    - A raised Python exception is an [Err] result.
    - A [DataFrame] is its column labels together with its rows. *)

From Stdlib Require Import String Ascii.
From Stdlib Require Import ZArith QArith Qround Qreduction.
From Stdlib Require Import List Bool Lia Lqa.
From Stdlib Require DecimalString.
Import ListNotations.

Local Open Scope string_scope.
Local Open Scope Z_scope.

(* ================================================================== *)
(** ** Results and the effect monad *)

Inductive PyExc : Type :=
| KeyError (key : string)
| IndexError
| ValueError.

Inductive result (A : Type) : Type :=
| Ok (a : A)
| Err (e : PyExc).
Arguments Ok {A} a.
Arguments Err {A} e.

(** The world outside the program: the entropy consumed by [random] and
    the clock read by [datetime.now()]. *)
Record World : Type := mkWorld {
  entropy : nat -> Z;   (* raw draws, in the order they are consumed *)
  cursor  : nat;        (* number of draws consumed so far *)
  clock   : nat -> Z;   (* successive clock readings, in microseconds *)
  ticks   : nat         (* number of clock readings taken so far *)
}.

Definition M (A : Type) : Type := World -> result (A * World).

Definition ret {A} (a : A) : M A := fun w => Ok (a, w).

Definition bind {A B} (m : M A) (f : A -> M B) : M B :=
  fun w => match m w with
           | Ok (a, w') => f a w'
           | Err e => Err e
           end.

Definition raise {A} (e : PyExc) : M A := fun _ => Err e.

Definition lift {A} (r : result A) : M A :=
  fun w => match r with Ok a => Ok (a, w) | Err e => Err e end.

Declare Scope py_scope.
Delimit Scope py_scope with py.
Notation "x <- m ;; k" := (bind m (fun x => k))
  (at level 61, m at next level, right associativity) : py_scope.
Notation "' p <- m ;; k" := (bind m (fun p => k))
  (at level 61, p pattern, m at next level, right associativity) : py_scope.
Local Open Scope py_scope.

(* ================================================================== *)
(** ** Numbers *)

(** Finite floats as rationals in lowest terms; [NaN] is what pandas
    returns for the mean of an empty column. *)
Inductive pyfloat : Type :=
| Fin (q : Q)
| NaN.

Definition fl (q : Q) : Q := Qred q.

Definition fadd (x y : Q) : Q := fl (x + y).
Definition fsub (x y : Q) : Q := fl (x - y).
Definition fmul (x y : Q) : Q := fl (x * y).

(** Round a rational to the nearest integer, ties to the even one. *)
Definition round_half_even (q : Q) : Z :=
  let d := Z.pos (Qden q) in
  let f := Qnum q / d in
  let m := Qnum q mod d in
  match 2 * m ?= d with
  | Lt => f
  | Gt => f + 1
  | Eq => if Z.even f then f else f + 1
  end.

(** [10 ^ n], as a denominator. *)
Definition scale10 (n : nat) : positive := Z.to_pos (10 ^ Z.of_nat n).

(** [round(x, ndigits)] for [ndigits >= 0]: the nearest multiple of
    [10^-ndigits], ties to the even one. *)
Definition py_round (x : Q) (ndigits : nat) : Q :=
  fl (round_half_even (x * (Z.pos (scale10 ndigits) # 1)) # scale10 ndigits).

(* ================================================================== *)
(** ** The [random] module and the clock *)

(** The world after one more raw draw, and after one more clock reading. *)
Definition advance (w : World) : World :=
  mkWorld (entropy w) (S (cursor w)) (clock w) (ticks w).

Definition tick (w : World) : World :=
  mkWorld (entropy w) (cursor w) (clock w) (S (ticks w)).

(** One raw draw from the tape. *)
Definition draw : M Z :=
  fun w => Ok (entropy w (cursor w), advance w).

(** [random.random()]: a multiple of 2^-53 in [0, 1). *)
Definition random_random : M Q :=
  r <- draw ;;
  ret (fl ((r mod 2 ^ 53) # (2 ^ 53))).

(** [Random._randbelow(n)], for [n > 0]: an integer in [0, n). *)
Definition randbelow (n : Z) : M Z :=
  r <- draw ;;
  ret (r mod n).

(** [random.uniform(a, b)] is [a + (b - a) * random()]. *)
Definition random_uniform (a b : Q) : M Q :=
  u <- random_random ;;
  ret (fadd a (fmul (fsub b a) u)).

(** [random.randint(a, b)] is [randrange(a, b + 1)]: [ValueError] on an
    empty range, otherwise [a + _randbelow(b + 1 - a)]. *)
Definition random_randint (a b : Z) : M Z :=
  let width := b + 1 - a in
  if width <=? 0 then raise ValueError
  else k <- randbelow width ;; ret (a + k).

(** [random.choice(seq)] is [seq[_randbelow(len(seq))]]: [IndexError] on
    an empty sequence. *)
Definition random_choice {A} (seq : list A) : M A :=
  match seq with
  | [] => raise IndexError
  | _ =>
      k <- randbelow (Z.of_nat (length seq)) ;;
      match nth_error seq (Z.to_nat k) with
      | Some x => ret x
      | None => raise IndexError
      end
  end.

(** [datetime.now()]: the next reading of the clock. *)
Definition datetime_now : M Z :=
  fun w => Ok (clock w (ticks w), tick w).

(* ================================================================== *)
(** ** Strings *)

(** [str(n)] for an integer. *)
Definition str_of_Z (n : Z) : string :=
  DecimalString.NilZero.string_of_int (Z.to_int n).

Fixpoint zeros (n : nat) : string :=
  match n with
  | O => ""
  | S n' => String "0" (zeros n')
  end.

(** The format [{n:0Wd}]: sign first, then zeros up to width [W]. *)
Definition format_0d (width : nat) (n : Z) : string :=
  let sign := if n <? 0 then "-" else "" in
  let digits := str_of_Z (Z.abs n) in
  sign ++ zeros (width - String.length sign - String.length digits) ++ digits.

(** [range(lo, hi)]. *)
Definition range (lo hi : Z) : list Z :=
  map (fun k => lo + Z.of_nat k) (seq 0 (Z.to_nat (hi - lo))).

(* ================================================================== *)
(** ** Rows and frames *)

(** One dict appended to [cells], one row of the frame. *)
Record Cell : Type := mkCell {
  Cell_ID       : string;
  Voltage_V     : Q;
  Current_A     : Q;
  Temperature_C : Z;
  Capacity_pct  : Z;     (* the column 'Capacity_%' *)
  Status        : string;
  Process       : string;
  Health        : string;
  Power_W       : Q;
  Last_Update   : Z
}.

Definition cell_columns : list string :=
  ["Cell_ID"; "Voltage_V"; "Current_A"; "Temperature_C"; "Capacity_%";
   "Status"; "Process"; "Health"; "Power_W"; "Last_Update"].

Record DataFrame : Type := mkFrame {
  columns : list string;
  rows    : list Cell
}.

(** [pd.DataFrame(cells)] for a list of dicts: the columns are the keys of
    the dicts, so an empty list gives a frame without columns. *)
Definition pd_DataFrame (cells : list Cell) : DataFrame :=
  match cells with
  | [] => mkFrame [] []
  | _ => mkFrame cell_columns cells
  end.

(** [len(df)]. *)
Definition len (df : DataFrame) : nat := length (rows df).

Definition has_column (df : DataFrame) (name : string) : bool :=
  existsb (String.eqb name) (columns df).

(** [df[name]]: the column as a list, [KeyError] when it is absent.  The
    caller names the field of the row that the label stands for. *)
Definition getitem {A} (df : DataFrame) (name : string) (field : Cell -> A)
  : result (list A) :=
  if has_column df name then Ok (map field (rows df))
  else Err (KeyError name).

(** [df[mask]]: the rows at which the boolean mask is true. *)
Fixpoint select_rows (cells : list Cell) (mask : list bool) : list Cell :=
  match cells, mask with
  | c :: cells', b :: mask' =>
      if b then c :: select_rows cells' mask' else select_rows cells' mask'
  | _, _ => []
  end.

Definition boolean_index (df : DataFrame) (mask : list bool) : DataFrame :=
  mkFrame (columns df) (select_rows (rows df) mask).

(* ================================================================== *)
(** ** [generate_cell_data] *)

Definition health_states : list string :=
  ["Excellent"; "Good"; "Warning"; "Critical"].

(** The body of the loop for cell number [i]. *)
Definition generate_cell (i : Z) : M Cell :=
  '(voltage, current, capacity, status, process) <-
    (if i <=? 4 then
       voltage <- (v <- random_uniform (39 # 10) (42 # 10) ;; ret (py_round v 2)) ;;
       current <- (c <- random_uniform (5 # 10) (35 # 10) ;; ret (py_round c 1)) ;;
       capacity <- random_randint 60 99 ;;
       status <- random_choice ["Charging"; "Charging"; "Complete"] ;;
       process <- random_choice ["CC"; "CV"; "Fast"] ;;
       ret (voltage, current, capacity, status, process)
     else
       voltage <- (v <- random_uniform (37 # 10) (421 # 100) ;; ret (py_round v 2)) ;;
       current <- (c <- random_uniform (0 # 1) (1 # 1) ;; ret (py_round c 1)) ;;
       capacity <- random_randint 85 100 ;;
       status <- random_choice ["Complete"; "Idle"] ;;
       process <- random_choice ["Trickle"; "None"] ;;
       ret (voltage, current, capacity, status, process)) ;;
  temperature <- random_randint 22 45 ;;
  health <- (if temperature <? 40 then random_choice health_states
             else ret "Warning") ;;
  now <- datetime_now ;;
  ret (mkCell ("Cell_" ++ format_0d 2 i)
              voltage current temperature capacity status process health
              (py_round (fmul voltage current) 1)
              now).

(** [for i in items: cells.append(body(i))], started from [cells]. *)
Fixpoint append_each {A B} (body : A -> M B) (items : list A) (cells : list B)
  : M (list B) :=
  match items with
  | [] => ret cells
  | i :: items' =>
      c <- body i ;;
      append_each body items' (cells ++ [c])%list
  end.

Definition generate_cell_data : M DataFrame :=
  cells <- append_each generate_cell (range 1 9) [] ;;
  ret (pd_DataFrame cells).

(* ================================================================== *)
(** ** Column operations used by [main] *)

Definition rbind {A B} (r : result A) (f : A -> result B) : result B :=
  match r with
  | Ok a => f a
  | Err e => Err e
  end.

Notation "x <~ r ;; k" := (rbind r (fun x => k))
  (at level 61, r at next level, right associativity) : py_scope.

(** [df[[c1; ...; cn]]]: the frame restricted to the listed columns,
    [KeyError] at the first label that is absent. *)
Fixpoint check_columns (df : DataFrame) (names : list string) : result unit :=
  match names with
  | [] => Ok tt
  | n :: names' =>
      if has_column df n then check_columns df names' else Err (KeyError n)
  end.

Definition getitems (df : DataFrame) (names : list string) : result DataFrame :=
  _ <~ check_columns df names ;;
  Ok (mkFrame names (rows df)).

(** [Series.sum()] of a float column; [0.0] when it is empty. *)
Definition series_sum (col : list Q) : pyfloat :=
  Fin (fold_left fadd col (0 # 1)).

(** [Series.mean()] of an integer column; [NaN] when it is empty. *)
Definition series_mean (col : list Z) : pyfloat :=
  match col with
  | [] => NaN
  | _ => Fin (fl (fold_left Z.add col 0 # Pos.of_nat (List.length col)))
  end.

(** [Series.unique()]: the values in order of first appearance. *)
Fixpoint unique_from (seen : list string) (col : list string) : list string :=
  match col with
  | [] => []
  | s :: col' =>
      if existsb (String.eqb s) seen then unique_from seen col'
      else s :: unique_from (s :: seen) col'
  end.

Definition unique (col : list string) : list string := unique_from [] col.

(** [Series.isin(values)]. *)
Definition isin (col : list string) (values : list string) : list bool :=
  map (fun s => existsb (String.eqb s) values) col.

(** Comparisons of a float with a literal; every comparison with [NaN]
    is false. *)
Definition flt (x : pyfloat) (y : Q) : bool :=
  match x with Fin q => Qle_bool q y && negb (Qeq_bool q y) | NaN => false end.

Definition fgt (x : pyfloat) (y : Q) : bool :=
  match x with Fin q => Qle_bool y q && negb (Qeq_bool q y) | NaN => false end.

(** The format [{x:.1f}]. *)
Definition format_1f (x : pyfloat) : string :=
  match x with
  | NaN => "nan"
  | Fin q =>
      let t := Z.abs (round_half_even (q * (10 # 1))) in
      (if Qnum q <? 0 then "-" else "")
        ++ str_of_Z (t / 10) ++ "." ++ str_of_Z (t mod 10)
  end.

Definition str_of_nat (n : nat) : string := str_of_Z (Z.of_nat n).

(* ================================================================== *)
(** ** What the page shows *)

(** The widgets [main] emits that depend on the data.  Static text (the
    title, section headings, the four explanatory boxes) is left out; a
    chart is represented by its title and the frame it is drawn from, a
    cell card by the row and the two colours it is drawn with. *)
Inductive UI : Type :=
| St_sidebar_metric (label value : string)
| St_metric (label value delta : string)
| St_cell_card (cell : Cell) (status_color health_color : string)
| St_plotly_chart (title : string) (data : DataFrame)
| St_dataframe (data : DataFrame) (styles : list string)
| St_error (msg : string)
| St_warning (msg : string)
| St_success (msg : string)
| St_write (data : DataFrame)
| St_last_updated (t : Z).

Definition get_status_color (status : string) : string :=
  if (status =? "Charging")%string then "#17a2b8"
  else if (status =? "Complete")%string then "#28a745"
  else if (status =? "Idle")%string then "#6c757d"
  else if (status =? "Error")%string then "#dc3545"
  else "#6c757d".

Definition get_health_color (health : string) : string :=
  if (health =? "Excellent")%string then "#28a745"
  else if (health =? "Good")%string then "#17a2b8"
  else if (health =? "Warning")%string then "#ffc107"
  else if (health =? "Critical")%string then "#dc3545"
  else "#6c757d".

Definition highlight_status (val : string) : string :=
  if (val =? "Charging")%string then "background-color: #d1ecf1"
  else if (val =? "Complete")%string then "background-color: #d4edda"
  else if (val =? "Error")%string then "background-color: #f8d7da"
  else "".

(* ================================================================== *)
(** ** The system status of [main] (lines 160-168 and 182-210) *)

Record Metrics : Type := mkMetrics {
  active_cells : nat;
  total_power  : pyfloat;
  avg_temp     : pyfloat;
  avg_capacity : pyfloat
}.

Definition system_status (df : DataFrame) : result Metrics :=
  status <~ getitem df "Status" Status ;;
  let active_cells :=
    len (boolean_index df (map (fun s => (s =? "Charging")%string) status)) in
  power <~ getitem df "Power_W" Power_W ;;
  let total_power := series_sum power in
  temp <~ getitem df "Temperature_C" Temperature_C ;;
  let avg_temp := series_mean temp in
  capacity <~ getitem df "Capacity_%" Capacity_pct ;;
  let avg_capacity := series_mean capacity in
  Ok (mkMetrics active_cells total_power avg_temp avg_capacity).

Definition sidebar_metrics (m : Metrics) : list UI :=
  [ St_sidebar_metric "Active Cells" (str_of_nat (active_cells m) ++ "/8");
    St_sidebar_metric "Total Power" (format_1f (total_power m) ++ " W");
    St_sidebar_metric "Avg Temperature" (format_1f (avg_temp m) ++ "°C");
    St_sidebar_metric "Avg Capacity" (format_1f (avg_capacity m) ++ "%") ].

Definition metric_cards (m : Metrics) : list UI :=
  [ St_metric "🔋 Active Charging"
      (str_of_nat (active_cells m))
      (str_of_nat (active_cells m) ++ "/8 cells");
    St_metric "⚡ Total Power"
      (format_1f (total_power m) ++ "W")
      "Real-time";
    St_metric "🌡️ Avg Temperature"
      (format_1f (avg_temp m) ++ "°C")
      (if flt (avg_temp m) (35 # 1) then "Normal" else "High");
    St_metric "📈 System Efficiency"
      (format_1f (avg_capacity m) ++ "%")
      (if fgt (avg_capacity m) (80 # 1) then "Optimal" else "Low") ].

(* ================================================================== *)
(** ** The process filter (lines 172-179) *)

(** [st.sidebar.multiselect]: the user's selection, the default while the
    widget is untouched. *)
Definition multiselect (options default : list string)
  (user : option (list string)) : list string :=
  match user with
  | Some chosen => chosen
  | None => default
  end.

Definition process_filter (df : DataFrame) (user : option (list string))
  : result DataFrame :=
  options <~ getitem df "Process" Process ;;
  default <~ getitem df "Process" Process ;;
  let selected_processes := multiselect (unique options) (unique default) user in
  process <~ getitem df "Process" Process ;;
  Ok (boolean_index df (isin process selected_processes)).

(* ================================================================== *)
(** ** The displays drawn from the filtered frame (lines 233-327) *)

(** The grid of cards visits the rows of the filtered frame in order,
    four to a line; each card reads eight fields of its row. *)
Definition cell_cards (filtered_df : DataFrame) : result (list UI) :=
  match rows filtered_df with
  | [] => Ok []
  | cells =>
      _ <~ check_columns filtered_df
             ["Status"; "Health"; "Cell_ID"; "Process"; "Voltage_V";
              "Current_A"; "Temperature_C"; "Capacity_%"] ;;
      Ok (map (fun cell =>
                 St_cell_card cell (get_status_color (Status cell))
                              (get_health_color (Health cell)))
              cells)
  end.

(** The four charts; the pie is drawn from the per-process sums of
    [Power_W] over the filtered frame.  A chart call is taken to raise
    only when a column it names is absent. *)
Definition charts (filtered_df : DataFrame) : result (list UI) :=
  _ <~ check_columns filtered_df
         ["Voltage_V"; "Current_A"; "Status"; "Capacity_%"; "Cell_ID";
          "Temperature_C"; "Process"] ;;
  _ <~ check_columns filtered_df ["Temperature_C"; "Health"] ;;
  _ <~ check_columns filtered_df ["Cell_ID"; "Capacity_%"; "Status"] ;;
  _ <~ check_columns filtered_df ["Process"; "Power_W"] ;;
  Ok [ St_plotly_chart "Voltage vs Current Analysis" filtered_df;
       St_plotly_chart "Temperature Distribution by Health" filtered_df;
       St_plotly_chart "Cell Capacity Levels" filtered_df;
       St_plotly_chart "Power Distribution by Process" filtered_df ].

Definition data_table (filtered_df : DataFrame) : result (list UI) :=
  status <~ getitem filtered_df "Status" Status ;;
  Ok [ St_dataframe filtered_df (map highlight_status status) ].

(* ================================================================== *)
(** ** The system alerts (lines 333-350) *)

Definition high_temp_cells (filtered_df : DataFrame) : result DataFrame :=
  temp <~ getitem filtered_df "Temperature_C" Temperature_C ;;
  Ok (boolean_index filtered_df (map (fun t => t >? 40) temp)).

Definition low_capacity_cells (filtered_df : DataFrame) : result DataFrame :=
  capacity <~ getitem filtered_df "Capacity_%" Capacity_pct ;;
  Ok (boolean_index filtered_df (map (fun c => c <? 20) capacity)).

Definition error_cells (filtered_df : DataFrame) : result DataFrame :=
  status <~ getitem filtered_df "Status" Status ;;
  Ok (boolean_index filtered_df (map (fun s => (s =? "Error")%string) status)).

Definition high_temp_msg (n : nat) : string :=
  "🌡️ High Temperature Alert: " ++ str_of_nat n ++ " cell(s) running hot!".

Definition low_capacity_msg (n : nat) : string :=
  "🔋 Low Capacity Alert: " ++ str_of_nat n ++ " cell(s) need attention!".

Definition error_msg (n : nat) : string :=
  "❌ Error Alert: " ++ str_of_nat n ++ " cell(s) in error state!".

Definition all_normal_msg : string := "✅ All systems operating normally!".

Definition system_alerts (filtered_df : DataFrame) : result (list UI) :=
  high <~ high_temp_cells filtered_df ;;
  low <~ low_capacity_cells filtered_df ;;
  err <~ error_cells filtered_df ;;
  out1 <~ (if (0 <? len high)%nat then
             view <~ getitems high ["Cell_ID"; "Temperature_C"; "Status"] ;;
             Ok [ St_error (high_temp_msg (len high)); St_write view ]
           else Ok []) ;;
  out2 <~ (if (0 <? len low)%nat then
             view <~ getitems low ["Cell_ID"; "Capacity_%"; "Status"] ;;
             Ok [ St_warning (low_capacity_msg (len low)); St_write view ]
           else Ok []) ;;
  out3 <~ (if (0 <? len err)%nat then
             view <~ getitems err ["Cell_ID"; "Status"; "Health"] ;;
             Ok [ St_error (error_msg (len err)); St_write view ]
           else Ok []) ;;
  let out4 :=
    if ((len high =? 0) && (len low =? 0) && (len err =? 0))%nat
    then [ St_success all_normal_msg ] else [] in
  Ok (out1 ++ out2 ++ out3 ++ out4)%list.

(* ================================================================== *)
(** ** [main] *)

(** Lines 156-350: everything [main] shows for the frame [df] and the
    state of the process filter. *)
Definition render (df : DataFrame) (user : option (list string))
  : result (list UI) :=
  m <~ system_status df ;;
  filtered_df <~ process_filter df user ;;
  cards <~ cell_cards filtered_df ;;
  figs <~ charts filtered_df ;;
  table <~ data_table filtered_df ;;
  alerts <~ system_alerts filtered_df ;;
  Ok (sidebar_metrics m ++ metric_cards m ++ cards ++ figs ++ table
        ++ alerts)%list.

(** [st.session_state]. *)
Record Session : Type := mkSession {
  cell_data   : DataFrame;
  last_update : Z
}.

(** Lines 48-50: the state of a new session.  [cell_data] starts as the
    empty list; only [len] is ever applied to it. *)
Definition init_session : M Session :=
  now <- datetime_now ;;
  ret (mkSession (mkFrame [] []) now).

(** What the user did since the last run. *)
Record Inputs : Type := mkInputs {
  auto_refresh      : bool;                  (* the checkbox, ticked by default *)
  refresh_clicked   : bool;                  (* the refresh button *)
  process_selection : option (list string)   (* the multiselect, [None] while untouched *)
}.

(** One run of the script, up to the sleep that precedes the rerun. *)
Definition main (inp : Inputs) (ss : Session) : M (list UI * Session) :=
  ss <- (if refresh_clicked inp then
           df <- generate_cell_data ;;
           now <- datetime_now ;;
           ret (mkSession df now)
         else ret ss) ;;
  ss <- (if (len (cell_data ss) =? 0)%nat || auto_refresh inp then
           df <- generate_cell_data ;;
           now <- datetime_now ;;
           ret (mkSession df now)
         else ret ss) ;;
  let df := cell_data ss in
  out <- lift (render df (process_selection inp)) ;;
  ret ((out ++ [ St_last_updated (last_update ss) ])%list, ss).

(* ================================================================== *)
(** ** The grid of cell cards, loop by loop (lines 233-253) *)

(** [range(start, stop, step)]: [ValueError] for a zero step; otherwise
    the values [start + step * k] that lie before [stop]. *)
Definition range3 (start stop step : Z) : result (list Z) :=
  if step =? 0 then Err ValueError
  else Ok (map (fun k => start + step * Z.of_nat k)
               (seq 0 (Z.to_nat (- ((start - stop) / step))))).

(** [df.iloc[k]]: the row at position [k], counted from the end when [k]
    is negative; [IndexError] outside the frame. *)
Definition iloc (df : DataFrame) (k : Z) : result Cell :=
  let n := Z.of_nat (len df) in
  let k' := if k <? 0 then k + n else k in
  if (0 <=? k') && (k' <? n) then
    match nth_error (rows df) (Z.to_nat k') with
    | Some c => Ok c
    | None => Err IndexError
    end
  else Err IndexError.

(** [for x in items: out += body(x)], stopping at the first exception. *)
Fixpoint for_each {A B} (body : A -> result (list B)) (items : list A)
  : result (list B) :=
  match items with
  | [] => Ok []
  | x :: items' =>
      out <~ body x ;;
      rest <~ for_each body items' ;;
      Ok (out ++ rest)%list
  end.

(** The nested loops that lay the cards out: a line of four columns for
    every fourth position [i], a card in column [j] when position [i + j]
    is inside the frame.  Each card comes with its line and its column. *)
Definition card_grid (filtered_df : DataFrame) : result (list (Z * Z * UI)) :=
  lines <~ range3 0 (Z.of_nat (len filtered_df)) 4 ;;
  for_each
    (fun i =>
       for_each
         (fun j =>
            if i + j <? Z.of_nat (len filtered_df) then
              cell <~ iloc filtered_df (i + j) ;;
              _ <~ check_columns filtered_df
                     ["Status"; "Health"; "Cell_ID"; "Process"; "Voltage_V";
                      "Current_A"; "Temperature_C"; "Capacity_%"] ;;
              Ok [ (i, j, St_cell_card cell (get_status_color (Status cell))
                                       (get_health_color (Health cell))) ]
            else Ok [])
         [0; 1; 2; 3])
    lines.

(* ================================================================== *)
(** ** [create_gauge_chart] *)



(* ================================================================== *)
(** * Specification vocabulary *)

(** [returns m w P]: run from [w], the computation [m] raises nothing and
    its value and final world satisfy [P]. *)
Definition returns {A} (m : M A) (w : World) (P : A -> World -> Prop) : Prop :=
  match m w with
  | Ok (a, w') => P a w'
  | Err _ => False
  end.

(** The element of [seq] that the raw draw [r] selects. *)
Definition chosen {A} (seq : list A) (r : Z) : option A :=
  nth_error seq (Z.to_nat (r mod Z.of_nat (List.length seq))).

(** The sampling profile of cells 1 to 4.  The status is the element that
    a raw draw selects from the list of three. *)
Record active_profile (c : Cell) : Prop := {
  active_voltage  : (39 # 10 <= Voltage_V c)%Q /\ (Voltage_V c <= 42 # 10)%Q;
  active_current  : (5 # 10 <= Current_A c)%Q /\ (Current_A c <= 35 # 10)%Q;
  active_capacity : 60 <= Capacity_pct c <= 99;
  active_status   : exists r,
      chosen ["Charging"; "Charging"; "Complete"] r = Some (Status c);
  active_process  : In (Process c) ["CC"; "CV"; "Fast"]
}.

(** The sampling profile of cells 5 to 8. *)
Record maintenance_profile (c : Cell) : Prop := {
  maint_voltage  : (37 # 10 <= Voltage_V c)%Q /\ (Voltage_V c <= 421 # 100)%Q;
  maint_current  : (0 # 1 <= Current_A c)%Q /\ (Current_A c <= 1 # 1)%Q;
  maint_capacity : 85 <= Capacity_pct c <= 100;
  maint_status   : In (Status c) ["Complete"; "Idle"];
  maint_process  : In (Process c) ["Trickle"; "None"]
}.

(** What one turn of the loop, run from [w] for cell number [i], yields. *)
Record cell_spec (i : Z) (w : World) (c : Cell) (w' : World) : Prop := {
  cs_id      : Cell_ID c = "Cell_" ++ format_0d 2 i;
  cs_power   : Power_W c = py_round (fmul (Voltage_V c) (Current_A c)) 1;
  cs_active  : i <= 4 -> active_profile c;
  cs_maint   : 4 < i -> maintenance_profile c;
  cs_temp    : 22 <= Temperature_C c <= 45;
  cs_hot     : 40 <= Temperature_C c -> Health c = "Warning";
  cs_cool    : Temperature_C c < 40 ->
               exists r, chosen health_states r = Some (Health c);
  cs_time    : Last_Update c = clock w (ticks w);
  cs_clock   : clock w' = clock w;
  cs_ticks   : ticks w' = S (ticks w)
}.

(** [chain R items w cells w']: the turns of the loop for [items], run one
    after the other from [w], produce [cells] and end in [w']; [R] relates
    each turn's item, starting world, product and final world. *)
Inductive chain {A B} (R : A -> World -> B -> World -> Prop)
  : list A -> World -> list B -> World -> Prop :=
| chain_nil w : chain R [] w [] w
| chain_cons i items w c w1 cells w2 :
    R i w c w1 -> chain R items w1 cells w2 ->
    chain R (i :: items) w (c :: cells) w2.

(** The frame with the ten columns and the rows [cells]. *)
Definition frame (cells : list Cell) : DataFrame := mkFrame cell_columns cells.

(** The row predicates behind the active count and the three alerts. *)
Definition is_charging (c : Cell) : bool := (Status c =? "Charging")%string.
Definition is_hot (c : Cell) : bool := Temperature_C c >? 40.
Definition is_low (c : Cell) : bool := Capacity_pct c <? 20.
Definition is_error (c : Cell) : bool := (Status c =? "Error")%string.

(** The processes selected for the rows [cells] and the widget state
    [user]. *)
Definition selected_processes (cells : list Cell) (user : option (list string))
  : list string :=
  multiselect (unique (map Process cells)) (unique (map Process cells)) user.

(** The process of the row [c] is among [selected]. *)
Definition is_selected (selected : list string) (c : Cell) : bool :=
  existsb (String.eqb (Process c)) selected.

(** The message and the table of one alert, nothing when its subset is
    empty. *)
Definition alert_block (msg : UI) (view : list string) (subset : list Cell)
  : list UI :=
  match subset with
  | [] => []
  | _ => [ msg; St_write (mkFrame view subset) ]
  end.

(** The banner, shown when the three subsets are empty. *)
Definition banner_block (high low err : list Cell) : list UI :=
  match high, low, err with
  | [], [], [] => [ St_success all_normal_msg ]
  | _, _, _ => []
  end.

(** The four metrics of the rows [cells]. *)
Definition metrics_of (cells : list Cell) : Metrics :=
  mkMetrics (List.length (filter is_charging cells))
            (series_sum (map Power_W cells))
            (series_mean (map Temperature_C cells))
            (series_mean (map Capacity_pct cells)).

(** The alert section for the rows [shown]. *)
Definition alerts_of (shown : list Cell) : list UI :=
  let high := filter is_hot shown in
  let low := filter is_low shown in
  let err := filter is_error shown in
  (alert_block (St_error (high_temp_msg (List.length high)))
               ["Cell_ID"; "Temperature_C"; "Status"] high
   ++ alert_block (St_warning (low_capacity_msg (List.length low)))
                  ["Cell_ID"; "Capacity_%"; "Status"] low
   ++ alert_block (St_error (error_msg (List.length err)))
                  ["Cell_ID"; "Status"; "Health"] err
   ++ banner_block high low err)%list.

(** The cards, charts, table and alerts drawn from the rows [shown]. *)
Definition displays_of (shown : list Cell) : list UI :=
  (map (fun cell => St_cell_card cell (get_status_color (Status cell))
                                 (get_health_color (Health cell)))
       shown
   ++ [ St_plotly_chart "Voltage vs Current Analysis" (frame shown);
        St_plotly_chart "Temperature Distribution by Health" (frame shown);
        St_plotly_chart "Cell Capacity Levels" (frame shown);
        St_plotly_chart "Power Distribution by Process" (frame shown) ]
   ++ [ St_dataframe (frame shown) (map highlight_status (map Status shown)) ]
   ++ alerts_of shown)%list.

(** The rows that pass the process filter. *)
Definition shown_cells (cells : list Cell) (user : option (list string))
  : list Cell :=
  filter (is_selected (selected_processes cells user)) cells.

(** [fresh w ss w']: the session [ss] holds a snapshot generated from the
    world [w], stamped with the clock reading taken right after it. *)
Definition fresh (w : World) (ss : Session) (w' : World) : Prop :=
  exists cells w1,
    cell_data ss = frame cells
    /\ chain cell_spec (range 1 9) w cells w1
    /\ last_update ss = clock w1 (ticks w1)
    /\ w' = tick w1.

(** The sessions [main] can meet: the stored snapshot is empty or carries
    the ten columns. *)
Definition session_ok (ss : Session) : Prop :=
  len (cell_data ss) = 0%nat \/ columns (cell_data ss) = cell_columns.

(** What a run shows for the session it ends with. *)
Definition shows (sel : option (list string)) (r : list UI * Session) : Prop :=
  exists out,
    render (cell_data (snd r)) sel = Ok out
    /\ fst r = (out ++ [ St_last_updated (last_update (snd r)) ])%list.

(** The alert messages. *)
Definition is_alert (e : UI) : bool :=
  match e with
  | St_error _ | St_warning _ => true
  | _ => false
  end.

(** Everything the alert section can show: messages, tables, banner. *)
Definition is_notice (e : UI) : bool :=
  match e with
  | St_error _ | St_warning _ | St_success _ | St_write _ => true
  | _ => false
  end.

(** 1 for a non-empty list, 0 for the empty one. *)
Definition nonempty {A} (l : list A) : nat :=
  match l with [] => 0 | _ => 1 end.



(** The row is below the 40 degrees at which the health is forced. *)
Definition is_cool (c : Cell) : bool := Temperature_C c <? 40.

(** The raw draws of one turn of the loop: six, and a seventh for the
    health of a reading below 40 degrees; the tape itself is untouched. *)
Definition cell_draws (w : World) (c : Cell) (w' : World) : Prop :=
  entropy w' = entropy w
  /\ cursor w' = (cursor w + 6 + (if is_cool c then 1 else 0))%nat.

(** The card of a row. *)
Definition card_of (c : Cell) : UI :=
  St_cell_card c (get_status_color (Status c)) (get_health_color (Health c)).

(** The cards of the rows [cells], the first of which is at position [k]
    of the frame: position [k] goes to the line that starts at the
    multiple of four below it and to the column [k mod 4]. *)
Fixpoint placed (k : nat) (cells : list Cell) : list (Z * Z * UI) :=
  match cells with
  | [] => []
  | c :: cells' =>
      (4 * (Z.of_nat k / 4), Z.of_nat k mod 4, card_of c)
        :: placed (S k) cells'
  end.

(** One column of one line of the grid, and one line: the bodies of the
    inner and of the outer loop of [card_grid]. *)
Definition grid_slot (df : DataFrame) (i j : Z) : result (list (Z * Z * UI)) :=
  if i + j <? Z.of_nat (len df) then
    cell <~ iloc df (i + j) ;;
    _ <~ check_columns df
           ["Status"; "Health"; "Cell_ID"; "Process"; "Voltage_V";
            "Current_A"; "Temperature_C"; "Capacity_%"] ;;
    Ok [ (i, j, St_cell_card cell (get_status_color (Status cell))
                             (get_health_color (Health cell))) ]
  else Ok [].

Definition grid_line (df : DataFrame) (i : Z) : result (list (Z * Z * UI)) :=
  for_each (grid_slot df i) [0; 1; 2; 3].

(** The number of lines of a grid of [r] cards. *)
Definition lines_of (r : nat) : nat := Z.to_nat (- ((0 - Z.of_nat r) / 4)).

(* ================================================================== *)
(** * Sample worlds and snapshots *)

(** A world whose clock advances by one microsecond at every reading. *)
Definition ticking_world : World :=
  mkWorld (fun _ => 0) 0 (fun n => Z.of_nat n) 0.



(** The snapshot generated from [cc_world]: three CC readings and five
    others. *)
Definition cc_cells : list Cell :=
  [ mkCell "Cell_01" (81 # 20) (2 # 1) 25 65 "Charging" "CC" "Excellent" (81 # 10) 0;
    mkCell "Cell_02" (39 # 10) (2 # 1) 30 70 "Charging" "CC" "Good" (39 # 5) 1;
    mkCell "Cell_03" (39 # 10) (9 # 10) 32 80 "Complete" "CC" "Good" (7 # 2) 2;
    mkCell "Cell_04" (81 # 20) (9 # 10) 34 90 "Charging" "CV" "Excellent" (18 # 5) 3;
    mkCell "Cell_05" (37 # 10) (0 # 1) 22 85 "Complete" "Trickle" "Excellent" (0 # 1) 4;
    mkCell "Cell_06" (37 # 10) (0 # 1) 22 85 "Complete" "Trickle" "Excellent" (0 # 1) 5;
    mkCell "Cell_07" (37 # 10) (0 # 1) 22 85 "Complete" "Trickle" "Excellent" (0 # 1) 6;
    mkCell "Cell_08" (37 # 10) (0 # 1) 22 85 "Complete" "Trickle" "Excellent" (0 # 1) 7 ].

(** A tape on which the first cell draws the temperature 40. *)
Definition threshold_world : World :=
  mkWorld (fun n => nth n [0; 2 ^ 52; 0; 0; 0; 18] 0) 0 (fun n => Z.of_nat n) 0.

(* ================================================================== *)
(** * Reasoning about the embedding *)

(** ** Rounding *)

Lemma round_half_even_floor (q : Q) :
  Qnum q / Z.pos (Qden q) <= round_half_even q <= Qnum q / Z.pos (Qden q) + 1.
Proof.
  unfold round_half_even.
  destruct (2 * (Qnum q mod Z.pos (Qden q)) ?= Z.pos (Qden q)); try lia.
  destruct (Z.even _); lia.
Qed.

Lemma round_half_even_lower (q : Q) (k : Z) :
  (inject_Z k <= q)%Q -> k <= round_half_even q.
Proof.
  destruct q as [n d]. unfold Qle. cbn [Qnum Qden inject_Z]. intros H.
  pose proof (round_half_even_floor (n # d)) as [Hf _]. cbn [Qnum Qden] in Hf.
  assert (k <= n / Z.pos d) by (apply Z.div_le_lower_bound; lia).
  lia.
Qed.

Lemma round_half_even_upper (q : Q) (k : Z) :
  (q <= inject_Z k)%Q -> round_half_even q <= k.
Proof.
  destruct q as [n d]. unfold Qle. cbn [Qnum Qden inject_Z]. intros H.
  unfold round_half_even. cbn [Qnum Qden].
  pose proof (Z.div_mod n (Z.pos d) ltac:(lia)) as Hdm.
  pose proof (Z.mod_pos_bound n (Z.pos d) ltac:(lia)) as Hm.
  assert (Hfk : n / Z.pos d <= k) by (apply Z.div_le_upper_bound; lia).
  assert (Hstrict : 0 < n mod Z.pos d -> n / Z.pos d + 1 <= k) by nia.
  destruct (2 * (n mod Z.pos d) ?= Z.pos d) eqn:E.
  - apply Z.compare_eq in E. destruct (Z.even _); lia.
  - exact Hfk.
  - apply Z.compare_gt_iff in E. lia.
Qed.

Lemma fl_eq (q : Q) : (fl q == q)%Q.
Proof. apply Qred_correct. Qed.

(** A value between two multiples of [10^-ndigits] rounds to a value
    between them. *)
Lemma py_round_between (x : Q) (ndigits : nat) (lo hi : Z) :
  (lo # scale10 ndigits <= x)%Q -> (x <= hi # scale10 ndigits)%Q ->
  (lo # scale10 ndigits <= py_round x ndigits)%Q
  /\ (py_round x ndigits <= hi # scale10 ndigits)%Q.
Proof.
  intros Hlo Hhi. unfold py_round. rewrite fl_eq.
  set (s := scale10 ndigits) in *.
  assert (Hl : (inject_Z lo <= x * (Z.pos s # 1))%Q).
  { destruct x as [n d]. unfold Qle in *. cbn in *. nia. }
  assert (Hh : (x * (Z.pos s # 1) <= inject_Z hi)%Q).
  { destruct x as [n d]. unfold Qle in *. cbn in *. nia. }
  apply round_half_even_lower in Hl. apply round_half_even_upper in Hh.
  unfold Qle. cbn [Qnum Qden]. nia.
Qed.

(** ** Sampling *)

Lemma unit_fraction (r : Z) :
  (0 <= fl ((r mod 2 ^ 53) # (2 ^ 53)))%Q /\ (fl ((r mod 2 ^ 53) # (2 ^ 53)) <= 1)%Q.
Proof.
  rewrite fl_eq.
  pose proof (Z.mod_pos_bound r (2 ^ 53) ltac:(lia)) as Hm.
  unfold Qle. cbn [Qnum Qden]. split; lia.
Qed.

Lemma uniform_between (a b u : Q) :
  (a <= b)%Q -> (0 <= u)%Q -> (u <= 1)%Q ->
  (a <= fadd a (fmul (fsub b a) u))%Q /\ (fadd a (fmul (fsub b a) u) <= b)%Q.
Proof.
  intros Hab H0 H1. unfold fadd, fmul, fsub. rewrite !fl_eq. split; nra.
Qed.

(** ** Total correctness of computations *)

Lemma returns_ret {A} (a : A) w (P : A -> World -> Prop) :
  P a w -> returns (ret a) w P.
Proof. exact (fun H => H). Qed.

Lemma returns_bind {A B} (m : M A) (f : A -> M B) w (P : B -> World -> Prop) :
  returns m w (fun a w' => returns (f a) w' P) -> returns (bind m f) w P.
Proof.
  unfold returns, bind. destruct (m w) as [[a w']|e]; trivial.
Qed.

Lemma returns_weaken {A} (m : M A) w (P Q : A -> World -> Prop) :
  returns m w P -> (forall a w', P a w' -> Q a w') -> returns m w Q.
Proof.
  unfold returns. destruct (m w) as [[a w']|e]; auto.
Qed.

Lemma returns_lift {A} (r : result A) w (P : A -> World -> Prop) (a : A) :
  r = Ok a -> P a w -> returns (lift r) w P.
Proof. intros -> H. exact H. Qed.

Lemma returns_elim {A} (m : M A) w (P : A -> World -> Prop) :
  returns m w P -> exists a w', m w = Ok (a, w') /\ P a w'.
Proof.
  unfold returns. destruct (m w) as [[a w']|e]; [eauto | tauto].
Qed.

Lemma returns_draw w (P : Z -> World -> Prop) :
  P (entropy w (cursor w)) (advance w) -> returns draw w P.
Proof. exact (fun H => H). Qed.

Lemma returns_random_uniform (a b : Q) w :
  (a <= b)%Q ->
  returns (random_uniform a b) w
    (fun x w' => ((a <= x)%Q /\ (x <= b)%Q) /\ w' = advance w).
Proof.
  intros Hab. unfold random_uniform, random_random.
  repeat (apply returns_bind || apply returns_draw || apply returns_ret).
  split; [|reflexivity].
  destruct (unit_fraction (entropy w (cursor w))) as [H0 H1].
  now apply uniform_between.
Qed.

Lemma returns_random_randint (a b : Z) w :
  a <= b ->
  returns (random_randint a b) w
    (fun k w' => a <= k <= b /\ w' = advance w).
Proof.
  intros Hab. unfold random_randint, randbelow.
  destruct (b + 1 - a <=? 0) eqn:E; [apply Z.leb_le in E; lia|].
  repeat (apply returns_bind || apply returns_draw || apply returns_ret).
  split; [|reflexivity].
  pose proof (Z.mod_pos_bound (entropy w (cursor w)) (b + 1 - a) ltac:(lia)).
  lia.
Qed.

Lemma chosen_In {A} (seq : list A) (r : Z) (x : A) :
  chosen seq r = Some x -> In x seq.
Proof. apply nth_error_In. Qed.

Lemma returns_random_choice {A} (seq : list A) w :
  seq <> [] ->
  returns (random_choice seq) w
    (fun x w' => chosen seq (entropy w (cursor w)) = Some x /\ w' = advance w).
Proof.
  intros Hne. unfold random_choice, randbelow.
  destruct seq as [|s0 seq0]; [congruence|].
  set (seq := s0 :: seq0) in *.
  repeat (apply returns_bind || apply returns_draw || apply returns_ret).
  fold (chosen seq (entropy w (cursor w))).
  destruct (chosen seq (entropy w (cursor w))) as [x|] eqn:E.
  - apply returns_ret. auto.
  - exfalso. apply nth_error_None in E.
    assert (0 < Z.of_nat (List.length seq)) by (subst seq; cbn [List.length]; lia).
    pose proof (Z.mod_pos_bound (entropy w (cursor w)) (Z.of_nat (List.length seq))
                  ltac:(lia)).
    lia.
Qed.

Lemma returns_datetime_now w (P : Z -> World -> Prop) :
  P (clock w (ticks w)) (tick w) -> returns datetime_now w P.
Proof. exact (fun H => H). Qed.

(* ================================================================== *)
(** * The generator *)

Ltac q_literal := unfold Qle, Qeq; cbn; lia.

Ltac run_bind := apply returns_bind.

Ltac run_ret := apply returns_ret; cbv beta iota zeta.

Ltac run_with spec :=
  eapply returns_weaken;
  [ apply spec; first [ discriminate | lia | q_literal ]
  | cbv beta; intros ? ? [? ->] ].

(** Rounding to two and to one decimals keeps a sample within decimal
    bounds. *)
Lemma round2_between (x : Q) (lo hi : Z) :
  ((lo # 100 <= x)%Q /\ (x <= hi # 100)%Q) ->
  (lo # 100 <= py_round x 2)%Q /\ (py_round x 2 <= hi # 100)%Q.
Proof. intros [H1 H2]. exact (py_round_between x 2 lo hi H1 H2). Qed.

Lemma round1_between (x : Q) (lo hi : Z) :
  ((lo # 10 <= x)%Q /\ (x <= hi # 10)%Q) ->
  (lo # 10 <= py_round x 1)%Q /\ (py_round x 1 <= hi # 10)%Q.
Proof. intros [H1 H2]. exact (py_round_between x 1 lo hi H1 H2). Qed.

Lemma round2_keeps (x a b : Q) (lo hi : Z) :
  (a == lo # 100)%Q -> (b == hi # 100)%Q ->
  ((a <= x)%Q /\ (x <= b)%Q) ->
  (a <= py_round x 2)%Q /\ (py_round x 2 <= b)%Q.
Proof.
  intros Ha Hb. rewrite Ha, Hb. apply round2_between.
Qed.

Lemma round1_keeps (x a b : Q) (lo hi : Z) :
  (a == lo # 10)%Q -> (b == hi # 10)%Q ->
  ((a <= x)%Q /\ (x <= b)%Q) ->
  (a <= py_round x 1)%Q /\ (py_round x 1 <= b)%Q.
Proof.
  intros Ha Hb. rewrite Ha, Hb. apply round1_between.
Qed.

Ltac cell_fields :=
  cbn [Cell_ID Power_W Voltage_V Current_A Temperature_C Capacity_pct
       Status Process Health Last_Update
       entropy clock ticks cursor advance tick] in *.

Ltac from_tape :=
  first [ eexists; eassumption | eapply chosen_In; eassumption ].

Lemma generate_cell_returns (i : Z) (w : World) :
  returns (generate_cell i) w (cell_spec i w).
Proof.
  unfold generate_cell. run_bind.
  destruct (i <=? 4) eqn:Ei;
    [ apply Z.leb_le in Ei | apply Z.leb_gt in Ei ];
    (run_bind; run_bind; run_with returns_random_uniform; run_ret;
     run_bind; run_bind; run_with returns_random_uniform; run_ret;
     run_bind; run_with returns_random_randint;
     run_bind; run_with (@returns_random_choice string);
     run_bind; run_with (@returns_random_choice string);
     run_ret;
     run_bind; run_with returns_random_randint;
     run_bind;
     match goal with
     | |- context [?t <? 40] => destruct (t <? 40) eqn:Et
     end;
     [ apply Z.ltb_lt in Et; run_with (@returns_random_choice string)
     | apply Z.ltb_ge in Et; run_ret ];
     run_bind; apply returns_datetime_now; run_ret;
     constructor; cell_fields;
     try reflexivity; try lia; try (intros; from_tape);
     intros _; constructor; cell_fields; try lia; try from_tape).
  - eapply (round2_keeps _ _ _ 390 420); [q_literal | q_literal | assumption].
  - eapply (round1_keeps _ _ _ 5 35); [q_literal | q_literal | assumption].
  - eapply (round2_keeps _ _ _ 390 420); [q_literal | q_literal | assumption].
  - eapply (round1_keeps _ _ _ 5 35); [q_literal | q_literal | assumption].
  - eapply (round2_keeps _ _ _ 370 421); [q_literal | q_literal | assumption].
  - eapply (round1_keeps _ _ _ 0 10); [q_literal | q_literal | assumption].
  - eapply (round2_keeps _ _ _ 370 421); [q_literal | q_literal | assumption].
  - eapply (round1_keeps _ _ _ 0 10); [q_literal | q_literal | assumption].
Qed.

(** ** The loop *)

Lemma append_each_returns {A B} (body : A -> M B)
      (R : A -> World -> B -> World -> Prop) :
  (forall i w, returns (body i) w (R i w)) ->
  forall items cells w,
    returns (append_each body items cells) w
      (fun out w' => exists new, out = (cells ++ new)%list
                                 /\ chain R items w new w').
Proof.
  intros Hbody. induction items as [|i items IH]; intros cells w; cbn [append_each].
  - run_ret. exists []. split; [now rewrite app_nil_r | constructor].
  - run_bind. eapply returns_weaken; [apply Hbody|]. cbv beta.
    intros c w1 Hc.
    eapply returns_weaken; [apply IH|]. cbv beta.
    intros out w2 (new & -> & Hchain).
    exists (c :: new). split; [now rewrite <- app_assoc | econstructor; eauto].
Qed.

Lemma chain_Forall2 {A B} (R : A -> World -> B -> World -> Prop)
      items w cells w' :
  chain R items w cells w' ->
  Forall2 (fun i c => exists wi wi', R i wi c wi') items cells.
Proof.
  induction 1; constructor; eauto.
Qed.

(** The clock readings stored by a run of the loop are consecutive. *)
Lemma chain_clock items w cells w' :
  chain cell_spec items w cells w' ->
  clock w' = clock w
  /\ ticks w' = (ticks w + List.length items)%nat
  /\ map Last_Update cells
     = map (fun k => clock w (ticks w + k)%nat) (seq 0 (List.length items)).
Proof.
  induction 1 as [w | i items w c w1 cells w2 Hc _ (IHc & IHt & IHm)].
  - cbn. now rewrite Nat.add_0_r.
  - destruct Hc as [_ _ _ _ _ _ _ Htime Hclock Hticks].
    cbn [List.length map seq].
    rewrite IHc, IHt, IHm, Hclock, Hticks, Htime, Nat.add_0_r.
    repeat split; [lia|]. f_equal.
    rewrite <- seq_shift, map_map.
    apply map_ext. intros k. f_equal. lia.
Qed.

Lemma range_1_9 : range 1 9 = [1; 2; 3; 4; 5; 6; 7; 8].
Proof. reflexivity. Qed.

(** [generate_cell_data] raises nothing; its frame carries the ten column
    labels and one row per turn of the loop over cells 1 to 8. *)
Lemma generate_cell_data_chain (w : World) :
  returns generate_cell_data w
    (fun df w' => exists cells,
         df = mkFrame cell_columns cells
         /\ chain cell_spec (range 1 9) w cells w').
Proof.
  unfold generate_cell_data. run_bind.
  eapply returns_weaken;
    [apply (append_each_returns _ _ generate_cell_returns)|].
  cbv beta. intros out w' (new & -> & Hchain). run_ret.
  exists new. split; [|exact Hchain].
  cbn [app]. rewrite range_1_9 in Hchain.
  inversion Hchain; subst. reflexivity.
Qed.

Lemma generate_cell_data_returns (w : World) :
  exists cells w',
    generate_cell_data w = Ok (mkFrame cell_columns cells, w')
    /\ chain cell_spec (range 1 9) w cells w'.
Proof.
  destruct (returns_elim _ _ _ (generate_cell_data_chain w))
    as (df & w' & E & cells & -> & Hchain).
  eauto.
Qed.

Lemma Forall2_length_eq {A B} (R : A -> B -> Prop) l1 l2 :
  Forall2 R l1 l2 -> List.length l2 = List.length l1.
Proof. induction 1; cbn; congruence. Qed.

Lemma Forall2_Forall_r {A B} (R : A -> B -> Prop) (P : B -> Prop) l1 l2 :
  (forall a b, R a b -> P b) -> Forall2 R l1 l2 -> Forall P l2.
Proof. intros HP. induction 1; constructor; eauto. Qed.

Lemma Forall2_map_eq {A B C} (R : A -> B -> Prop) (f : B -> C) (g : A -> C) l1 l2 :
  (forall a b, R a b -> f b = g a) -> Forall2 R l1 l2 -> map f l2 = map g l1.
Proof. intros HR. induction 1; cbn; [reflexivity|]. f_equal; eauto. Qed.



(* ================================================================== *)
(** * The evaluator on a frame that carries the ten columns *)

Lemma select_rows_map (f : Cell -> bool) (cells : list Cell) :
  select_rows cells (map f cells) = filter f cells.
Proof.
  induction cells as [|c cells IH]; cbn; [reflexivity|].
  rewrite IH. reflexivity.
Qed.

Lemma getitem_frame {A} (cells : list Cell) (name : string) (field : Cell -> A) :
  existsb (String.eqb name) cell_columns = true ->
  getitem (frame cells) name field = Ok (map field cells).
Proof.
  intros H. unfold getitem, has_column, frame. cbn [columns rows].
  now rewrite H.
Qed.

Lemma boolean_index_frame (f : Cell -> bool) (cells : list Cell) :
  boolean_index (frame cells) (map f cells) = frame (filter f cells).
Proof.
  unfold boolean_index, frame. cbn [columns rows].
  now rewrite select_rows_map.
Qed.

Lemma system_status_frame (cells : list Cell) :
  system_status (frame cells)
  = Ok (mkMetrics (List.length (filter is_charging cells))
                  (series_sum (map Power_W cells))
                  (series_mean (map Temperature_C cells))
                  (series_mean (map Capacity_pct cells))).
Proof.
  unfold system_status.
  rewrite !getitem_frame by reflexivity. cbn [rbind].
  rewrite map_map. rewrite (boolean_index_frame is_charging).
  reflexivity.
Qed.

Lemma process_filter_frame (cells : list Cell) (user : option (list string)) :
  process_filter (frame cells) user
  = Ok (frame (filter (is_selected (selected_processes cells user)) cells)).
Proof.
  unfold process_filter.
  rewrite !getitem_frame by reflexivity. cbn [rbind].
  unfold isin. rewrite map_map.
  rewrite (boolean_index_frame (is_selected (selected_processes cells user))).
  reflexivity.
Qed.

Lemma cell_cards_frame (cells : list Cell) :
  cell_cards (frame cells)
  = Ok (map (fun cell => St_cell_card cell (get_status_color (Status cell))
                                      (get_health_color (Health cell)))
            cells).
Proof. destruct cells; reflexivity. Qed.

Lemma charts_frame (cells : list Cell) :
  charts (frame cells)
  = Ok [ St_plotly_chart "Voltage vs Current Analysis" (frame cells);
         St_plotly_chart "Temperature Distribution by Health" (frame cells);
         St_plotly_chart "Cell Capacity Levels" (frame cells);
         St_plotly_chart "Power Distribution by Process" (frame cells) ].
Proof. reflexivity. Qed.

Lemma data_table_frame (cells : list Cell) :
  data_table (frame cells)
  = Ok [ St_dataframe (frame cells)
           (map highlight_status (map Status cells)) ].
Proof.
  unfold data_table. rewrite getitem_frame by reflexivity. reflexivity.
Qed.

Lemma high_temp_cells_frame (cells : list Cell) :
  high_temp_cells (frame cells) = Ok (frame (filter is_hot cells)).
Proof.
  unfold high_temp_cells. rewrite getitem_frame by reflexivity. cbn [rbind].
  rewrite map_map. now rewrite (boolean_index_frame is_hot).
Qed.

Lemma low_capacity_cells_frame (cells : list Cell) :
  low_capacity_cells (frame cells) = Ok (frame (filter is_low cells)).
Proof.
  unfold low_capacity_cells. rewrite getitem_frame by reflexivity. cbn [rbind].
  rewrite map_map. now rewrite (boolean_index_frame is_low).
Qed.

Lemma error_cells_frame (cells : list Cell) :
  error_cells (frame cells) = Ok (frame (filter is_error cells)).
Proof.
  unfold error_cells. rewrite getitem_frame by reflexivity. cbn [rbind].
  rewrite map_map. now rewrite (boolean_index_frame is_error).
Qed.

Lemma system_alerts_frame (cells : list Cell) :
  let high := filter is_hot cells in
  let low := filter is_low cells in
  let err := filter is_error cells in
  system_alerts (frame cells)
  = Ok (alert_block (St_error (high_temp_msg (List.length high)))
                    ["Cell_ID"; "Temperature_C"; "Status"] high
        ++ alert_block (St_warning (low_capacity_msg (List.length low)))
                       ["Cell_ID"; "Capacity_%"; "Status"] low
        ++ alert_block (St_error (error_msg (List.length err)))
                       ["Cell_ID"; "Status"; "Health"] err
        ++ banner_block high low err)%list.
Proof.
  intros high low err. unfold system_alerts.
  rewrite high_temp_cells_frame, low_capacity_cells_frame, error_cells_frame.
  cbn [rbind]. fold high low err. unfold len, frame. cbn [rows].
  destruct high, low, err; reflexivity.
Qed.

(** [render] on a frame with the ten columns raises nothing: it shows the
    metrics of all the rows, then the displays of the filtered rows. *)
Lemma render_eq (cells : list Cell) (user : option (list string)) :
  render (frame cells) user
  = Ok (sidebar_metrics (metrics_of cells) ++ metric_cards (metrics_of cells)
          ++ displays_of (shown_cells cells user))%list.
Proof.
  unfold render.
  rewrite system_status_frame, process_filter_frame. cbn [rbind].
  fold (shown_cells cells user). fold (metrics_of cells).
  rewrite cell_cards_frame, charts_frame, data_table_frame. cbn [rbind].
  pose proof (system_alerts_frame (shown_cells cells user)) as Ha.
  cbv zeta in Ha. rewrite Ha. cbn [rbind].
  reflexivity.
Qed.

(* ================================================================== *)
(** * Properties of the generator *)

Lemma chain_cells (w : World) (cells : list Cell) (w' : World) :
  chain cell_spec (range 1 9) w cells w' ->
  Forall2 (fun i c => exists wi wi', cell_spec i wi c wi') (range 1 9) cells.
Proof. apply chain_Forall2. Qed.

(** C1. Every snapshot that [generate_cell_data] produces has exactly
    eight readings, whose identifiers are Cell_01 to Cell_08 in that
    order, without duplicates. *)
Theorem generate_cell_data_ids (w : World) :
  exists df w',
    generate_cell_data w = Ok (df, w')
    /\ len df = 8%nat
    /\ map Cell_ID (rows df)
       = ["Cell_01"; "Cell_02"; "Cell_03"; "Cell_04";
          "Cell_05"; "Cell_06"; "Cell_07"; "Cell_08"]
    /\ NoDup (map Cell_ID (rows df)).
Proof.
  destruct (generate_cell_data_returns w) as (cells & w' & E & Hchain).
  apply chain_cells in Hchain.
  exists (mkFrame cell_columns cells), w'. split; [exact E|].
  assert (Hids : map Cell_ID cells
                 = map (fun i => "Cell_" ++ format_0d 2 i) (range 1 9)).
  { eapply Forall2_map_eq; [|exact Hchain].
    intros i c (wi & wi' & Hc). apply (cs_id _ _ _ _ Hc). }
  unfold len. cbn [rows]. split; [|split].
  - now rewrite (Forall2_length_eq _ _ _ Hchain).
  - rewrite Hids. reflexivity.
  - rewrite Hids. change (map _ (range 1 9)) with
      ["Cell_01"; "Cell_02"; "Cell_03"; "Cell_04";
       "Cell_05"; "Cell_06"; "Cell_07"; "Cell_08"].
    repeat (constructor; [cbn [In]; intuition discriminate|]).
    constructor.
Qed.




(** C4. In every generated snapshot, a reading at 40 degrees or more has
    health Warning, and a reading below 40 degrees has one of the four
    health states. *)
Theorem generate_cell_data_health (w : World) :
  exists df w',
    generate_cell_data w = Ok (df, w')
    /\ Forall (fun c =>
                 (40 <= Temperature_C c -> Health c = "Warning")
                 /\ (Temperature_C c < 40 ->
                     In (Health c) ["Excellent"; "Good"; "Warning"; "Critical"]))
              (rows df).
Proof.
  destruct (generate_cell_data_returns w) as (cells & w' & E & Hchain).
  apply chain_cells in Hchain.
  exists (mkFrame cell_columns cells), w'. split; [exact E|]. cbn [rows].
  eapply Forall2_Forall_r; [|exact Hchain].
  intros i c (wi & wi' & Hc). split.
  - apply (cs_hot _ _ _ _ Hc).
  - intros Ht. destruct (cs_cool _ _ _ _ Hc Ht) as (r & Hr).
    exact (chosen_In _ _ _ Hr).
Qed.

(* ================================================================== *)
(** * One run of [main] *)

Lemma refresh_returns (w : World) :
  returns (df <- generate_cell_data ;;
           now <- datetime_now ;;
           ret (mkSession df now)) w (fresh w).
Proof.
  run_bind. eapply returns_weaken; [apply generate_cell_data_chain|].
  cbv beta. intros df w1 (cells & -> & Hchain).
  run_bind. apply returns_datetime_now. run_ret.
  exists cells, w1. cbn [cell_data last_update]. auto.
Qed.

Lemma fresh_length w ss w' :
  fresh w ss w' ->
  columns (cell_data ss) = cell_columns /\ len (cell_data ss) = 8%nat.
Proof.
  intros (cells & w1 & -> & Hchain & _ & _). split; [reflexivity|].
  apply chain_cells, Forall2_length_eq in Hchain. exact Hchain.
Qed.

Lemma frame_of_columns (df : DataFrame) :
  columns df = cell_columns -> df = frame (rows df).
Proof. destruct df as [cols cells]. cbn. now intros ->. Qed.

Lemma main_tail (sel : option (list string)) (ss : Session) (w : World)
      (P : list UI * Session -> World -> Prop) :
  columns (cell_data ss) = cell_columns ->
  (forall r, shows sel r -> snd r = ss -> P r w) ->
  returns (out <- lift (render (cell_data ss) sel) ;;
           ret ((out ++ [ St_last_updated (last_update ss) ])%list, ss)) w P.
Proof.
  intros Hcols HP.
  pose proof (render_eq (rows (cell_data ss)) sel) as Hr.
  rewrite <- (frame_of_columns _ Hcols) in Hr.
  run_bind. eapply returns_lift; [exact Hr|]. run_ret.
  apply HP; [|reflexivity]. eexists. split; [exact Hr | reflexivity].
Qed.

(** A run on a session [main] can meet raises nothing, ends with a
    non-empty snapshot and shows what [render] yields for it. *)
Lemma main_returns (inp : Inputs) (ss : Session) (w : World) :
  session_ok ss ->
  returns (main inp ss) w
    (fun r _ => shows (process_selection inp) r
                /\ columns (cell_data (snd r)) = cell_columns
                /\ len (cell_data (snd r)) <> 0%nat).
Proof.
  intros Hss. unfold main. run_bind.
  eapply (returns_weaken _ _ (fun ss1 _ => session_ok ss1)).
  { destruct (refresh_clicked inp).
    - eapply returns_weaken; [apply refresh_returns|].
      intros ss1 w1 H. right. apply (fresh_length _ _ _ H).
    - run_ret. exact Hss. }
  cbv beta. intros ss1 w1 Hss1. run_bind.
  eapply (returns_weaken _ _
            (fun ss2 _ => columns (cell_data ss2) = cell_columns
                          /\ len (cell_data ss2) <> 0%nat)).
  { destruct ((len (cell_data ss1) =? 0)%nat || auto_refresh inp) eqn:E.
    - eapply returns_weaken; [apply refresh_returns|].
      intros ss2 w2 H. destruct (fresh_length _ _ _ H) as [Hc Hl].
      split; [exact Hc | lia].
    - run_ret. apply orb_false_iff in E. destruct E as [E _].
      apply Nat.eqb_neq in E. destruct Hss1 as [H0|Hc]; [contradiction|].
      split; assumption. }
  cbv beta. intros ss2 w2 [Hc Hl]. cbv zeta.
  apply main_tail; [exact Hc|].
  intros r Hr ->. auto.
Qed.

Lemma init_session_ok (w : World) :
  returns init_session w (fun ss _ => session_ok ss).
Proof.
  unfold init_session. run_bind. apply returns_datetime_now. run_ret.
  left. reflexivity.
Qed.

(** A run with auto-refresh on and the button untouched replaces the
    snapshot by one generated from the world the run starts in. *)
Lemma main_auto_refresh (sel : option (list string)) (ss : Session) (w : World) :
  returns (main (mkInputs true false sel) ss) w
    (fun r w' => fresh w (snd r) w' /\ shows sel r).
Proof.
  unfold main. cbn [refresh_clicked auto_refresh process_selection].
  run_bind. run_ret. run_bind. rewrite orb_true_r.
  eapply returns_weaken; [apply refresh_returns|].
  cbv beta. intros ss2 w2 H. cbv zeta.
  apply main_tail; [apply (fresh_length _ _ _ H)|].
  intros r Hr ->. auto.
Qed.

(** The clock readings of a run that refreshes the snapshot: one per
    reading, in order, then one for the session. *)
Lemma main_auto_refresh_clock (sel : option (list string)) (ss : Session)
      (w : World) :
  exists out ss' w',
    main (mkInputs true false sel) ss w = Ok ((out, ss'), w')
    /\ map Last_Update (rows (cell_data ss'))
       = map (fun k => clock w (ticks w + k)%nat) (seq 0 8)
    /\ last_update ss' = clock w (ticks w + 8)%nat.
Proof.
  destruct (returns_elim _ _ _ (main_auto_refresh sel ss w))
    as ([out ss'] & w' & E & (cells & w1 & Hd & Hchain & Hu & _) & _).
  cbn [snd] in *. exists out, ss', w'. split; [exact E|].
  destruct (chain_clock _ _ _ _ Hchain) as (Hc & Ht & Hm).
  rewrite Hd, Hu, Hc, Ht. cbn [rows frame]. split; [exact Hm | reflexivity].
Qed.

(** C7, as stated, fails: with a clock that advances between readings,
    the eight readings of a refreshed snapshot carry eight different
    times, none of them the capture time recorded for the snapshot. *)
Lemma last_update_not_shared :
  exists out ss' w',
    main (mkInputs true false None) (mkSession (mkFrame [] []) 0) ticking_world
    = Ok ((out, ss'), w')
    /\ map Last_Update (rows (cell_data ss')) = [0; 1; 2; 3; 4; 5; 6; 7]
    /\ last_update ss' = 8
    /\ ~ Forall (fun c => Last_Update c = last_update ss')
                (rows (cell_data ss'))
    /\ ~ (exists t, Forall (fun c => Last_Update c = t) (rows (cell_data ss'))).
Proof.
  destruct (main_auto_refresh_clock None (mkSession (mkFrame [] []) 0)
                                    ticking_world)
    as (out & ss' & w' & E & Hm & Hu).
  exists out, ss', w'. cbn in Hm, Hu.
  split; [exact E|]. split; [exact Hm|]. split; [exact Hu|].
  assert (Hall : forall t, Forall (fun c => Last_Update c = t)
                                  (rows (cell_data ss')) ->
                           Forall (fun x => x = t) [0; 1; 2; 3; 4; 5; 6; 7]).
  { intros t H. rewrite <- Hm. apply Forall_map. exact H. }
  split.
  - intros H. apply Hall in H. rewrite Hu in H.
    inversion H; discriminate.
  - intros (t & H). apply Hall in H.
    inversion H as [|? ? H0 H']; subst. inversion H'; discriminate.
Qed.

(** C7, amended. The k-th reading of a generated snapshot carries the
    k-th clock reading taken while generating, and the capture time that
    [main] records for the snapshot is the reading taken next; the nine
    values are one and the same whenever the clock does not advance
    between these readings. *)
Theorem last_update_per_reading (w : World) :
  (exists df w',
      generate_cell_data w = Ok (df, w')
      /\ map Last_Update (rows df)
         = map (fun k => clock w (ticks w + k)%nat) (seq 0 8))
  /\ (forall sel ss,
         exists out ss' w',
           main (mkInputs true false sel) ss w = Ok ((out, ss'), w')
           /\ map Last_Update (rows (cell_data ss'))
              = map (fun k => clock w (ticks w + k)%nat) (seq 0 8)
           /\ last_update ss' = clock w (ticks w + 8)%nat
           /\ (forall t,
                  (forall k, (k <= 8)%nat -> clock w (ticks w + k)%nat = t) ->
                  Forall (fun c => Last_Update c = t) (rows (cell_data ss'))
                  /\ last_update ss' = t)).
Proof.
  split.
  - destruct (generate_cell_data_returns w) as (cells & w' & E & Hchain).
    exists (mkFrame cell_columns cells), w'. split; [exact E|].
    apply (chain_clock _ _ _ _ Hchain).
  - intros sel ss.
    destruct (main_auto_refresh_clock sel ss w)
      as (out & ss' & w' & E & Hm & Hu).
    exists out, ss', w'. repeat (split; [assumption|]).
    intros t Ht. split; [|rewrite Hu; apply Ht; lia].
    apply Forall_map with (f := Last_Update) (P := fun x => x = t).
    rewrite Hm. apply Forall_map, Forall_forall.
    intros k Hk. apply in_seq in Hk. apply Ht. lia.
Qed.

(* ================================================================== *)
(** * Alerts and banner *)

Lemma filter_none {A} (p : A -> bool) (l : list A) :
  Forall (fun x => p x = false) l -> filter p l = [].
Proof.
  induction 1 as [|x l Hx _ IH]; cbn; [reflexivity|]. now rewrite Hx.
Qed.

Lemma filter_all {A} (p : A -> bool) (l : list A) :
  Forall (fun x => p x = true) l -> filter p l = l.
Proof.
  induction 1 as [|x l Hx _ IH]; cbn; [reflexivity|]. now rewrite Hx, IH.
Qed.

Lemma alerts_of_notices (shown : list Cell) :
  filter is_notice (alerts_of shown) = alerts_of shown.
Proof.
  unfold alerts_of. cbv zeta.
  destruct (filter is_hot shown), (filter is_low shown),
    (filter is_error shown); reflexivity.
Qed.

(** Among all that [render] shows, the alert section is what [alerts_of]
    describes for the filtered rows; nothing else is an alert, a table of
    affected cells or a banner. *)
Lemma render_notices (cells : list Cell) (user : option (list string)) :
  exists out,
    render (frame cells) user = Ok out
    /\ filter is_notice out = alerts_of (shown_cells cells user).
Proof.
  eexists. split; [apply render_eq|].
  unfold displays_of. rewrite !filter_app.
  rewrite (filter_none is_notice (map _ (shown_cells cells user)))
    by (apply Forall_map, Forall_forall; reflexivity).
  rewrite alerts_of_notices. reflexivity.
Qed.

Lemma existsb_eqb_In (s : string) (l : list string) :
  existsb (String.eqb s) l = true <-> In s l.
Proof.
  rewrite existsb_exists. split.
  - intros (x & Hx & E). apply String.eqb_eq in E. now subst.
  - intros H. exists s. split; [exact H | apply String.eqb_refl].
Qed.

Lemma unique_from_In (seen col : list string) (x : string) :
  In x (unique_from seen col) <-> In x col /\ ~ In x seen.
Proof.
  revert seen. induction col as [|s col IH]; intros seen; cbn [unique_from In].
  - tauto.
  - destruct (existsb (String.eqb s) seen) eqn:E.
    + apply existsb_eqb_In in E. rewrite IH. split.
      * tauto.
      * intros [[<- | H] Hn]; tauto.
    + assert (Hs : ~ In s seen).
      { intros H. apply existsb_eqb_In in H. congruence. }
      cbn [In]. rewrite IH. cbn [In].
      destruct (string_dec s x) as [<- | Hne]; tauto.
Qed.

Lemma unique_In (col : list string) (x : string) :
  In x (unique col) <-> In x col.
Proof. unfold unique. rewrite unique_from_In. cbn. tauto. Qed.

(** While the filter is untouched every row is shown. *)
Lemma shown_cells_default (cells : list Cell) :
  shown_cells cells None = cells.
Proof.
  unfold shown_cells, selected_processes, multiselect.
  apply filter_all, Forall_forall. intros c Hc.
  apply existsb_eqb_In, unique_In, in_map. exact Hc.
Qed.

(** The alert messages of the three alerts differ from one another,
    whatever counts they name. *)
Lemma alert_messages_distinct (n m : nat) :
  St_error (high_temp_msg n) <> St_error (error_msg m)
  /\ St_error (high_temp_msg n) <> St_warning (low_capacity_msg m)
  /\ St_warning (low_capacity_msg n) <> St_error (error_msg m).
Proof.
  unfold high_temp_msg, low_capacity_msg, error_msg. cbn [append].
  repeat split; discriminate.
Qed.

(** C5. The banner is shown exactly when the three alert subsets of the
    displayed readings (temperature above 40, capacity below 20, status
    Error) are all empty; a non-empty subset produces one alert message
    that names its size, together with the table of its cells, and an
    empty subset produces none; the messages of the three alerts differ
    from one another.  The displayed readings are those that pass the
    process filter, all of them while the filter is untouched. *)
Theorem banner_iff_no_alert (cells : list Cell) (user : option (list string)) :
  let shown := shown_cells cells user in
  let high := filter is_hot shown in
  let low := filter is_low shown in
  let err := filter is_error shown in
  process_filter (frame cells) user = Ok (frame shown)
  /\ high_temp_cells (frame shown) = Ok (frame high)
  /\ low_capacity_cells (frame shown) = Ok (frame low)
  /\ error_cells (frame shown) = Ok (frame err)
  /\ exists alerts,
      system_alerts (frame shown) = Ok alerts
      /\ (In (St_success all_normal_msg) alerts
          <-> high = [] /\ low = [] /\ err = [])
      /\ List.length (filter is_alert alerts)
         = (nonempty high + nonempty low + nonempty err)%nat
      /\ (high <> [] ->
          In (St_error (high_temp_msg (List.length high))) alerts
          /\ In (St_write (mkFrame ["Cell_ID"; "Temperature_C"; "Status"] high))
                alerts)
      /\ (low <> [] ->
          In (St_warning (low_capacity_msg (List.length low))) alerts
          /\ In (St_write (mkFrame ["Cell_ID"; "Capacity_%"; "Status"] low))
                alerts)
      /\ (err <> [] ->
          In (St_error (error_msg (List.length err))) alerts
          /\ In (St_write (mkFrame ["Cell_ID"; "Status"; "Health"] err)) alerts)
      /\ (forall n m,
             St_error (high_temp_msg n) <> St_error (error_msg m)
             /\ St_error (high_temp_msg n) <> St_warning (low_capacity_msg m)
             /\ St_warning (low_capacity_msg n) <> St_error (error_msg m))
      /\ (forall out,
             render (frame cells) user = Ok out ->
             filter is_notice out = alerts)
      /\ (user = None -> shown = cells).
Proof.
  intros shown high low err.
  split; [apply process_filter_frame|].
  split; [apply high_temp_cells_frame|].
  split; [apply low_capacity_cells_frame|].
  split; [apply error_cells_frame|].
  exists (alerts_of shown).
  split; [exact (system_alerts_frame shown)|].
  unfold alerts_of. cbv zeta. fold high low err.
  split; [|split; [|split; [|split; [|split; [|split; [|split]]]]]].
  - destruct high, low, err; cbn; split; intros H;
      try (repeat split; reflexivity); try tauto;
      repeat (destruct H as [H|H]; try discriminate H);
      try contradiction; destruct H as (? & ? & ?); discriminate.
  - destruct high, low, err; reflexivity.
  - intros Hne. destruct high; [congruence|]. cbn. auto.
  - intros Hne. destruct low; [congruence|].
    split; apply in_or_app; right; cbn; auto.
  - intros Hne. destruct err; [congruence|].
    split; apply in_or_app; right; apply in_or_app; right; cbn; auto.
  - exact alert_messages_distinct.
  - intros out Hr.
    destruct (render_notices cells user) as (out' & Hr' & Hn).
    rewrite Hr in Hr'. injection Hr' as <-. exact Hn.
  - intros ->. apply shown_cells_default.
Qed.

(* ================================================================== *)
(** * Metrics and the process filter *)








(* ================================================================== *)
(** * Snapshots of unexpected size *)

(** A run that starts from an empty stored snapshot generates a new one
    before anything is evaluated. *)
Lemma main_empty_session (inp : Inputs) (ss : Session) (w : World) :
  len (cell_data ss) = 0%nat ->
  returns (main inp ss) w
    (fun r w' => (exists w0, fresh w0 (snd r) w')
                 /\ shows (process_selection inp) r).
Proof.
  intros Hlen. unfold main. run_bind.
  eapply (returns_weaken _ _
            (fun ss1 w1 => len (cell_data ss1) = 0%nat
                           \/ exists w0, fresh w0 ss1 w1)).
  { destruct (refresh_clicked inp).
    - eapply returns_weaken; [apply refresh_returns|].
      intros ss1 w1 H. right. eauto.
    - run_ret. left. exact Hlen. }
  cbv beta. intros ss1 w1 Hss1. run_bind.
  eapply (returns_weaken _ _ (fun ss2 w2 => exists w0, fresh w0 ss2 w2)).
  { destruct ((len (cell_data ss1) =? 0)%nat || auto_refresh inp) eqn:E.
    - eapply returns_weaken; [apply refresh_returns|]. eauto.
    - run_ret. apply orb_false_iff in E. destruct E as [E _].
      apply Nat.eqb_neq in E. destruct Hss1 as [H0|Hf]; [contradiction|].
      exact Hf. }
  cbv beta. intros ss2 w2 (w0 & Hf). cbv zeta.
  apply main_tail; [apply (fresh_length _ _ _ Hf)|].
  intros r Hr ->. eauto.
Qed.

(** C8, as stated, fails: for an empty snapshot that carries the columns
    the two averages are NaN and are shown as "nan", not as "no data";
    and the empty frame built from no readings at all has no columns, so
    that evaluating it raises [KeyError]. *)
Lemma empty_snapshot_shows_nan :
  (exists m,
      system_status (frame []) = Ok m
      /\ m = mkMetrics 0 (Fin (0 # 1)) NaN NaN
      /\ sidebar_metrics m
         = [ St_sidebar_metric "Active Cells" "0/8";
             St_sidebar_metric "Total Power" "0.0 W";
             St_sidebar_metric "Avg Temperature" "nan°C";
             St_sidebar_metric "Avg Capacity" "nan%" ]
      /\ metric_cards m
         = [ St_metric "🔋 Active Charging" "0" "0/8 cells";
             St_metric "⚡ Total Power" "0.0W" "Real-time";
             St_metric "🌡️ Avg Temperature" "nan°C" "High";
             St_metric "📈 System Efficiency" "nan%" "Low" ]
      /\ format_1f (avg_temp m) <> "no data"
      /\ format_1f (avg_capacity m) <> "no data")
  /\ pd_DataFrame [] = mkFrame [] []
  /\ system_status (pd_DataFrame []) = Err (KeyError "Status").
Proof.
  split; [|split; reflexivity].
  eexists. split; [reflexivity|].
  repeat (split; [reflexivity|]). split; discriminate.
Qed.

(** C8, amended. On a snapshot of any size, hence also of fewer than
    eight readings or of none, whose frame carries the reading columns,
    the aggregate computations raise nothing; over no readings the active
    count is 0, the total power 0.0 and both averages NaN, which is shown
    as "nan".  [main] itself never evaluates an empty stored snapshot: it
    generates a new one of eight readings first. *)
Theorem evaluator_total_on_columns :
  (forall cells,
      system_status (frame cells) = Ok (metrics_of cells)
      /\ active_cells (metrics_of cells)
         = List.length (filter is_charging cells)
      /\ total_power (metrics_of cells) = series_sum (map Power_W cells)
      /\ avg_temp (metrics_of cells) = series_mean (map Temperature_C cells)
      /\ avg_capacity (metrics_of cells)
         = series_mean (map Capacity_pct cells))
  /\ metrics_of [] = mkMetrics 0 (Fin (0 # 1)) NaN NaN
  /\ sidebar_metrics (metrics_of [])
     = [ St_sidebar_metric "Active Cells" "0/8";
         St_sidebar_metric "Total Power" "0.0 W";
         St_sidebar_metric "Avg Temperature" "nan°C";
         St_sidebar_metric "Avg Capacity" "nan%" ]
  /\ (forall inp ss w,
         len (cell_data ss) = 0%nat ->
         exists out ss' w',
           main inp ss w = Ok ((out, ss'), w')
           /\ len (cell_data ss') = 8%nat
           /\ exists shown,
               render (cell_data ss') (process_selection inp) = Ok shown
               /\ out = (shown ++ [ St_last_updated (last_update ss') ])%list).
Proof.
  split; [|split; [reflexivity|split; [reflexivity|]]].
  - intros cells. split; [apply system_status_frame|].
    repeat split.
  - intros inp ss w Hlen.
    destruct (returns_elim _ _ _ (main_empty_session inp ss w Hlen))
      as ([out ss'] & w' & E & (w0 & Hf) & (shown & Hr & Ho)).
    cbn [fst snd] in *. exists out, ss', w'.
    split; [exact E|]. split; [apply (fresh_length _ _ _ Hf)|]. eauto.
Qed.

(* ================================================================== *)
(** * Status Error and the temperature threshold *)

Lemma cell_spec_not_error (i : Z) (w : World) (c : Cell) (w' : World) :
  cell_spec i w c w' -> Status c <> "Error".
Proof.
  intros Hc. destruct (Z_le_gt_dec i 4) as [Hi|Hi].
  - destruct (active_status _ (cs_active _ _ _ _ Hc Hi)) as (r & Hr).
    apply chosen_In in Hr. cbn [In] in Hr. intros E. rewrite E in Hr.
    intuition discriminate.
  - assert (Hm := maint_status _ (cs_maint _ _ _ _ Hc ltac:(lia))).
    cbn [In] in Hm. intros E. rewrite E in Hm.
    intuition discriminate.
Qed.

Lemma filter_is_error_nil (cells : list Cell) :
  Forall (fun c => Status c <> "Error") cells -> filter is_error cells = [].
Proof.
  intros H. apply filter_none. eapply Forall_impl; [|exact H].
  intros c Hc. cbv beta. unfold is_error.
  destruct (String.eqb_spec (Status c) "Error"); [contradiction | reflexivity].
Qed.

Lemma Forall_filter {A} (P : A -> Prop) (p : A -> bool) (l : list A) :
  Forall P l -> Forall P (filter p l).
Proof.
  intros H. apply Forall_forall. intros x Hx.
  apply filter_In in Hx. rewrite Forall_forall in H. now apply H.
Qed.

(** No error alert is among the alerts of rows without status Error. *)
Lemma alerts_of_no_error (shown : list Cell) (n : nat) :
  filter is_error shown = [] ->
  ~ In (St_error (error_msg n)) (alerts_of shown).
Proof.
  intros Herr Hin. unfold alerts_of in Hin. cbv zeta in Hin.
  rewrite Herr in Hin.
  destruct (alert_messages_distinct (List.length (filter is_hot shown)) n)
    as (Hd & _ & _).
  destruct (filter is_hot shown), (filter is_low shown); cbn in Hin;
    repeat (destruct Hin as [Hin|Hin]; try discriminate Hin;
            try (symmetry in Hin; contradiction));
    try contradiction.
Qed.

(** C9. No generated reading has status Error; hence, for every generated
    snapshot and every state of the filter, the subset of readings in
    error is empty, the alert section holds no error alert, and no error
    alert is among what the page shows. *)
Theorem generated_never_error (w : World) :
  exists df w',
    generate_cell_data w = Ok (df, w')
    /\ Forall (fun c => Status c <> "Error") (rows df)
    /\ forall user,
        exists fdf alerts,
          process_filter df user = Ok fdf
          /\ error_cells fdf = Ok (frame [])
          /\ system_alerts fdf = Ok alerts
          /\ (forall n, ~ In (St_error (error_msg n)) alerts)
          /\ (forall out n,
                 render df user = Ok out -> ~ In (St_error (error_msg n)) out).
Proof.
  destruct (generate_cell_data_returns w) as (cells & w' & E & Hchain).
  apply chain_cells in Hchain.
  assert (Hst : Forall (fun c => Status c <> "Error") cells).
  { eapply Forall2_Forall_r; [|exact Hchain].
    intros i c (wi & wi' & Hc). exact (cell_spec_not_error _ _ _ _ Hc). }
  exists (mkFrame cell_columns cells), w'. split; [exact E|].
  split; [exact Hst|]. intros user. fold (frame cells).
  assert (Herr : filter is_error (shown_cells cells user) = []).
  { apply filter_is_error_nil, Forall_filter, Hst. }
  exists (frame (shown_cells cells user)), (alerts_of (shown_cells cells user)).
  split; [apply process_filter_frame|].
  split; [rewrite error_cells_frame, Herr; reflexivity|].
  split; [exact (system_alerts_frame (shown_cells cells user))|].
  split; [intros n; apply alerts_of_no_error, Herr|].
  intros out n Hr Hin.
  destruct (render_notices cells user) as (out' & Hr' & Hn).
  rewrite Hr in Hr'. injection Hr' as <-.
  apply (alerts_of_no_error (shown_cells cells user) n Herr).
  rewrite <- Hn. apply filter_In. split; [exact Hin | reflexivity].
Qed.

Lemma filter_is_hot_above (cells : list Cell) (c : Cell) :
  In c (filter is_hot cells) -> 40 < Temperature_C c.
Proof.
  intros H. apply filter_In in H. destruct H as [_ H].
  unfold is_hot in H. apply Z.gtb_lt in H. exact H.
Qed.

(** C10. In every generated snapshot a reading at exactly 40 degrees has
    its health forced to Warning and yet is not in the over-temperature
    subset, whatever the state of the filter. *)
Theorem threshold_reading_not_alerted (w : World) (user : option (list string)) :
  exists df w' fdf high,
    generate_cell_data w = Ok (df, w')
    /\ process_filter df user = Ok fdf
    /\ high_temp_cells fdf = Ok high
    /\ forall c,
        In c (rows df) -> Temperature_C c = 40 ->
        Health c = "Warning" /\ ~ In c (rows high).
Proof.
  destruct (generate_cell_data_returns w) as (cells & w' & E & Hchain).
  apply chain_cells in Hchain.
  exists (mkFrame cell_columns cells), w',
    (frame (shown_cells cells user)),
    (frame (filter is_hot (shown_cells cells user))).
  split; [exact E|]. fold (frame cells).
  split; [apply process_filter_frame|].
  split; [apply high_temp_cells_frame|].
  cbn [rows frame]. intros c Hc Ht. split.
  - assert (Hall : Forall (fun c => 40 <= Temperature_C c -> Health c = "Warning")
                          cells).
    { eapply Forall2_Forall_r; [|exact Hchain].
      intros i c0 (wi & wi' & Hc0). apply (cs_hot _ _ _ _ Hc0). }
    rewrite Forall_forall in Hall. apply (Hall c Hc). lia.
  - intros Hin. apply filter_is_hot_above in Hin. lia.
Qed.

(** Readings at exactly 40 degrees are generated: the first reading of
    the snapshot drawn from [threshold_world] is one, with health Warning
    and no alert raised. *)
Example threshold_reading_generated :
  exists df w' c out,
    generate_cell_data threshold_world = Ok (df, w')
    /\ nth_error (rows df) 0 = Some c
    /\ Temperature_C c = 40
    /\ Health c = "Warning"
    /\ render df None = Ok out
    /\ In (St_success all_normal_msg) out.
Proof.
  eexists _, _, _, _.
  split; [vm_compute; reflexivity|].
  split; [reflexivity|]. split; [reflexivity|]. split; [reflexivity|].
  split; [vm_compute; reflexivity|].
  do 21 right. left. reflexivity.
Qed.

(* ================================================================== *)
(** * Further properties of the generator *)

(** The eight readings of a generated snapshot, one by one. *)
Lemma generated_eight (w : World) (cells : list Cell) (w' : World) :
  chain cell_spec (range 1 9) w cells w' ->
  exists c1 c2 c3 c4 c5 c6 c7 c8,
    cells = [c1; c2; c3; c4; c5; c6; c7; c8]
    /\ (active_profile c1 /\ 22 <= Temperature_C c1 <= 45)
    /\ (active_profile c2 /\ 22 <= Temperature_C c2 <= 45)
    /\ (active_profile c3 /\ 22 <= Temperature_C c3 <= 45)
    /\ (active_profile c4 /\ 22 <= Temperature_C c4 <= 45)
    /\ (maintenance_profile c5 /\ 22 <= Temperature_C c5 <= 45)
    /\ (maintenance_profile c6 /\ 22 <= Temperature_C c6 <= 45)
    /\ (maintenance_profile c7 /\ 22 <= Temperature_C c7 <= 45)
    /\ (maintenance_profile c8 /\ 22 <= Temperature_C c8 <= 45).
Proof.
  intros H. apply chain_cells in H. rewrite range_1_9 in H.
  repeat match goal with
         | H : Forall2 _ (_ :: _) _ |- _ => inversion H; clear H; subst
         | H : Forall2 _ [] _ |- _ => inversion H; clear H; subst
         | H : exists _, _ |- _ => destruct H
         end.
  do 8 eexists. split; [reflexivity|].
  repeat match goal with |- _ /\ _ => split end;
    match goal with
    | H : cell_spec ?i _ ?c _ |- active_profile ?c =>
        apply (cs_active _ _ _ _ H); lia
    | H : cell_spec ?i _ ?c _ |- maintenance_profile ?c =>
        apply (cs_maint _ _ _ _ H); lia
    | H : cell_spec ?i _ ?c _ |- _ <= Temperature_C ?c =>
        apply (cs_temp _ _ _ _ H)
    | H : cell_spec ?i _ ?c _ |- Temperature_C ?c <= _ =>
        apply (cs_temp _ _ _ _ H)
    end.
Qed.

Lemma maintenance_not_charging (c : Cell) :
  maintenance_profile c -> is_charging c = false.
Proof.
  intros H. destruct (maint_status _ H) as [E | [E | []]];
    unfold is_charging; rewrite <- E; reflexivity.
Qed.

(** X1. At most four readings of a generated snapshot are charging, since
    readings 5 to 8 never are: the active count that [main] derives is at
    most 4. *)
Theorem generated_active_count (w : World) :
  exists df w' m,
    generate_cell_data w = Ok (df, w')
    /\ system_status df = Ok m
    /\ (active_cells m <= 4)%nat
    /\ forall (k : nat) (c : Cell),
        nth_error (rows df) k = Some c -> (4 <= k)%nat ->
        Status c <> "Charging".
Proof.
  destruct (generate_cell_data_returns w) as (cells & w' & E & Hchain).
  destruct (generated_eight _ _ _ Hchain)
    as (c1 & c2 & c3 & c4 & c5 & c6 & c7 & c8 & ->
        & _ & _ & _ & _ & [H5 _] & [H6 _] & [H7 _] & [H8 _]).
  apply maintenance_not_charging in H5, H6, H7, H8.
  eexists _, w', _. split; [exact E|].
  split; [apply (system_status_frame [c1; c2; c3; c4; c5; c6; c7; c8])|].
  cbn [active_cells rows]. split.
  - cbn [filter]. rewrite H5, H6, H7, H8.
    destruct (is_charging c1), (is_charging c2), (is_charging c3),
      (is_charging c4); cbn; lia.
  - intros k c Hk Hge E'.
    assert (Hc : is_charging c = true) by (unfold is_charging; now rewrite E').
    do 4 (destruct k as [|k]; [lia|]).
    do 4 (destruct k as [|k]; [cbn in Hk; injection Hk as <-; congruence|]).
    destruct k; discriminate.
Qed.

(** What holds of one generated reading whatever its index. *)
Lemma cell_spec_ranges (i : Z) (w : World) (c : Cell) (w' : World) :
  cell_spec i w c w' ->
  60 <= Capacity_pct c <= 100 /\ 22 <= Temperature_C c <= 45.
Proof.
  intros Hc. split; [|apply (cs_temp _ _ _ _ Hc)].
  destruct (Z_le_gt_dec i 4) as [Hi|Hi].
  - pose proof (active_capacity _ (cs_active _ _ _ _ Hc Hi)). lia.
  - pose proof (maint_capacity _ (cs_maint _ _ _ _ Hc ltac:(lia))). lia.
Qed.

Lemma filter_is_low_nil (cells : list Cell) :
  Forall (fun c => 20 <= Capacity_pct c) cells -> filter is_low cells = [].
Proof.
  intros H. apply filter_none. eapply Forall_impl; [|exact H].
  intros c Hc. cbv beta. unfold is_low. apply Z.ltb_ge. exact Hc.
Qed.

(** X2. Every generated reading has a capacity between 60 and 100 and a
    temperature between 22 and 45; hence, for every generated snapshot and
    every state of the filter, no reading is below the 20 percent
    threshold and the alert section holds no warning. *)
Theorem generated_never_low_capacity (w : World) :
  exists df w',
    generate_cell_data w = Ok (df, w')
    /\ Forall (fun c => 60 <= Capacity_pct c <= 100
                        /\ 22 <= Temperature_C c <= 45) (rows df)
    /\ forall user,
        exists fdf alerts,
          process_filter df user = Ok fdf
          /\ low_capacity_cells fdf = Ok (frame [])
          /\ system_alerts fdf = Ok alerts
          /\ forall msg, ~ In (St_warning msg) alerts.
Proof.
  destruct (generate_cell_data_returns w) as (cells & w' & E & Hchain).
  apply chain_cells in Hchain.
  assert (Hr : Forall (fun c => 60 <= Capacity_pct c <= 100
                                /\ 22 <= Temperature_C c <= 45) cells).
  { eapply Forall2_Forall_r; [|exact Hchain].
    intros i c (wi & wi' & Hc). exact (cell_spec_ranges _ _ _ _ Hc). }
  exists (mkFrame cell_columns cells), w'. split; [exact E|].
  split; [exact Hr|]. intros user. fold (frame cells).
  assert (Hlow : filter is_low (shown_cells cells user) = []).
  { apply filter_is_low_nil, Forall_filter.
    eapply Forall_impl; [|exact Hr]. cbv beta. intros c Hc. lia. }
  exists (frame (shown_cells cells user)), (alerts_of (shown_cells cells user)).
  split; [apply process_filter_frame|].
  split; [rewrite low_capacity_cells_frame, Hlow; reflexivity|].
  split; [exact (system_alerts_frame (shown_cells cells user))|].
  intros msg Hin. unfold alerts_of in Hin. cbv zeta in Hin.
  rewrite Hlow in Hin.
  destruct (filter is_hot (shown_cells cells user)),
    (filter is_error (shown_cells cells user)); cbn in Hin;
    repeat (destruct Hin as [Hin|Hin]; try discriminate Hin);
    try contradiction.
Qed.

(** X3. In a generated snapshot, whatever the state of the filter, every
    reading listed by the over-temperature alert is between 41 and 45
    degrees and has health Warning. *)
Theorem generated_hot_cells_warning (w : World) (user : option (list string)) :
  exists df w' fdf high,
    generate_cell_data w = Ok (df, w')
    /\ process_filter df user = Ok fdf
    /\ high_temp_cells fdf = Ok high
    /\ Forall (fun c => 41 <= Temperature_C c <= 45 /\ Health c = "Warning")
              (rows high).
Proof.
  destruct (generate_cell_data_returns w) as (cells & w' & E & Hchain).
  apply chain_cells in Hchain.
  exists (mkFrame cell_columns cells), w',
    (frame (shown_cells cells user)),
    (frame (filter is_hot (shown_cells cells user))).
  split; [exact E|]. fold (frame cells).
  split; [apply process_filter_frame|].
  split; [apply high_temp_cells_frame|].
  cbn [rows frame]. apply Forall_forall. intros c Hc.
  pose proof (filter_is_hot_above _ _ Hc) as Hhot.
  apply filter_In in Hc. destruct Hc as [Hc _].
  apply filter_In in Hc. destruct Hc as [Hc _].
  assert (Hall : Forall (fun c => 22 <= Temperature_C c <= 45
                                  /\ (40 <= Temperature_C c -> Health c = "Warning"))
                        cells).
  { eapply Forall2_Forall_r; [|exact Hchain].
    intros i c0 (wi & wi' & Hc0). split.
    - apply (cs_temp _ _ _ _ Hc0).
    - apply (cs_hot _ _ _ _ Hc0). }
  rewrite Forall_forall in Hall. destruct (Hall c Hc) as [Ht Hh].
  split; [lia | apply Hh; lia].
Qed.





(** X5. The two averages that [main] derives from a generated snapshot
    are numbers, never NaN: the average temperature lies between 22 and
    45 and the average capacity between 72.5 and 99.5. *)
Theorem generated_averages (w : World) :
  exists df w' m t p,
    generate_cell_data w = Ok (df, w')
    /\ system_status df = Ok m
    /\ avg_temp m = Fin t
    /\ (22 # 1 <= t)%Q /\ (t <= 45 # 1)%Q
    /\ avg_capacity m = Fin p
    /\ (145 # 2 <= p)%Q /\ (p <= 199 # 2)%Q.
Proof.
  destruct (generate_cell_data_returns w) as (cells & w' & E & Hchain).
  destruct (generated_eight _ _ _ Hchain)
    as (c1 & c2 & c3 & c4 & c5 & c6 & c7 & c8 & ->
        & [A1 T1] & [A2 T2] & [A3 T3] & [A4 T4]
        & [M5 T5] & [M6 T6] & [M7 T7] & [M8 T8]).
  apply active_capacity in A1, A2, A3, A4.
  apply maint_capacity in M5, M6, M7, M8.
  eexists _, w', _, _, _. split; [exact E|].
  split; [apply (system_status_frame [c1; c2; c3; c4; c5; c6; c7; c8])|].
  cbn [avg_temp avg_capacity series_mean map fold_left List.length].
  change (Pos.of_nat 8) with 8%positive.
  split; [reflexivity|].
  split; [rewrite fl_eq; unfold Qle; cbn [Qnum Qden]; lia|].
  split; [rewrite fl_eq; unfold Qle; cbn [Qnum Qden]; lia|].
  split; [reflexivity|].
  split; rewrite fl_eq; unfold Qle; cbn [Qnum Qden]; lia.
Qed.

(** ** What the generator consumes *)

Lemma returns_conj {A} (m : M A) w (P Q : A -> World -> Prop) :
  returns m w P -> returns m w Q -> returns m w (fun a w' => P a w' /\ Q a w').
Proof.
  unfold returns. destruct (m w) as [[a w']|e]; auto.
Qed.

Lemma generate_cell_draws (i : Z) (w : World) :
  returns (generate_cell i) w (fun c w' => cell_draws w c w').
Proof.
  unfold generate_cell. run_bind.
  destruct (i <=? 4);
    (run_bind; run_bind; run_with returns_random_uniform; run_ret;
     run_bind; run_bind; run_with returns_random_uniform; run_ret;
     run_bind; run_with returns_random_randint;
     run_bind; run_with (@returns_random_choice string);
     run_bind; run_with (@returns_random_choice string);
     run_ret;
     run_bind; run_with returns_random_randint;
     run_bind;
     match goal with
     | |- context [?t <? 40] => destruct (t <? 40) eqn:Et
     end;
     [ run_with (@returns_random_choice string) | run_ret ];
     run_bind; apply returns_datetime_now; run_ret;
     unfold cell_draws, is_cool; cell_fields; rewrite Et;
     (split; [reflexivity | lia])).
Qed.

Lemma chain_weaken {A B} (R R' : A -> World -> B -> World -> Prop)
      items w cells w' :
  (forall i w c w', R i w c w' -> R' i w c w') ->
  chain R items w cells w' -> chain R' items w cells w'.
Proof.
  intros HR. induction 1; econstructor; eauto.
Qed.

Lemma chain_draws {A} (items : list A) w cells w' :
  chain (fun _ w c w' => cell_draws w c w') items w cells w' ->
  entropy w' = entropy w
  /\ cursor w' = (cursor w + 6 * List.length cells
                  + List.length (filter is_cool cells))%nat.
Proof.
  induction 1 as [w | i items w c w1 cells w2 [He Hc] _ (IHe & IHc)].
  - cbn. split; [reflexivity | lia].
  - split; [congruence|]. rewrite IHc, Hc. cbn [List.length filter].
    destruct (is_cool c); cbn [List.length]; lia.
Qed.

(** X6. One call of [generate_cell_data] reads the clock exactly eight
    times and makes exactly 48 random draws plus one for every reading
    below 40 degrees (the health of a hotter reading is not drawn); it
    leaves the entropy and the clock themselves as they are. *)
Theorem generate_cell_data_consumption (w : World) :
  exists df w',
    generate_cell_data w = Ok (df, w')
    /\ entropy w' = entropy w
    /\ clock w' = clock w
    /\ ticks w' = (ticks w + 8)%nat
    /\ cursor w' = (cursor w + 48 + List.length (filter is_cool (rows df)))%nat.
Proof.
  assert (H : returns generate_cell_data w
                (fun df w' => exists cells,
                     df = mkFrame cell_columns cells
                     /\ chain (fun i w c w' => cell_spec i w c w'
                                               /\ cell_draws w c w')
                              (range 1 9) w cells w')).
  { unfold generate_cell_data. run_bind.
    eapply returns_weaken;
      [apply (append_each_returns generate_cell
                (fun i w c w' => cell_spec i w c w' /\ cell_draws w c w'));
       intros i w0; apply returns_conj;
       [apply generate_cell_returns | apply generate_cell_draws]|].
    cbv beta. intros out w' (new & -> & Hchain). run_ret.
    exists new. split; [|exact Hchain].
    cbn [app]. rewrite range_1_9 in Hchain.
    inversion Hchain; subst. reflexivity. }
  destruct (returns_elim _ _ _ H) as (df & w' & E & cells & -> & Hchain).
  exists (mkFrame cell_columns cells), w'. split; [exact E|].
  assert (Hs : chain cell_spec (range 1 9) w cells w')
    by (eapply chain_weaken; [|exact Hchain]; cbv beta; tauto).
  assert (Hd : chain (fun _ w c w' => cell_draws w c w') (range 1 9) w cells w')
    by (eapply chain_weaken; [|exact Hchain]; cbv beta; tauto).
  destruct (chain_clock _ _ _ _ Hs) as (Hc & Ht & _).
  destruct (chain_draws _ _ _ _ Hd) as (He & Hn).
  apply chain_cells, Forall2_length_eq in Hs. cbn [rows].
  rewrite Hs in Hn. cbn [List.length range] in *.
  repeat split; try assumption; lia.
Qed.

(* ================================================================== *)
(** * Further properties of [main] *)

(** The clock readings behind a freshly generated session. *)
Lemma fresh_clock (w : World) (ss : Session) (w' : World) :
  fresh w ss w' ->
  clock w' = clock w
  /\ ticks w' = (ticks w + 9)%nat
  /\ map Last_Update (rows (cell_data ss))
     = map (fun k => clock w (ticks w + k)%nat) (seq 0 8)
  /\ last_update ss = clock w (ticks w + 8)%nat.
Proof.
  intros (cells & w1 & -> & Hchain & Hu & ->).
  destruct (chain_clock _ _ _ _ Hchain) as (Hc & Ht & Hm).
  change (List.length (range 1 9)) with 8%nat in Ht, Hm.
  cbn [clock ticks tick rows frame cell_data].
  rewrite Hu, Hc, Ht.
  split; [reflexivity|]. split; [lia|]. split; [exact Hm | reflexivity].
Qed.



Lemma main_click (auto : bool) (sel : option (list string)) (ss : Session)
      (w : World) :
  returns (main (mkInputs auto true sel) ss) w
    (fun r w' =>
       exists ss1 w1,
         fresh w ss1 w1
         /\ (if auto then fresh w1 (snd r) w' else snd r = ss1 /\ w' = w1)
         /\ shows sel r).
Proof.
  unfold main. cbn [refresh_clicked auto_refresh process_selection].
  run_bind. eapply returns_weaken; [apply refresh_returns|].
  cbv beta. intros ss1 w1 H1. run_bind.
  destruct (fresh_length _ _ _ H1) as [Hc1 Hl1].
  destruct auto.
  - rewrite orb_true_r.
    eapply returns_weaken; [apply refresh_returns|].
    cbv beta. intros ss2 w2 H2. cbv zeta.
    apply main_tail; [apply (fresh_length _ _ _ H2)|].
    intros r Hr ->. exists ss1, w1. auto.
  - rewrite orb_false_r, Hl1. cbn [Nat.eqb]. run_ret.
    apply main_tail; [exact Hc1|].
    intros r Hr ->. exists ss1, w1. auto.
Qed.

(** X8. A click on the refresh button with auto-refresh off generates one
    snapshot: nine clock readings, the last one the capture time.  With
    auto-refresh on, the same click generates two snapshots in the one
    run and the page shows the second: eighteen clock readings, the
    readings of the snapshot shown being the tenth to the seventeenth. *)
Theorem main_click_generations (sel : option (list string)) (ss : Session)
        (w : World) :
  (exists out ss' w',
      main (mkInputs false true sel) ss w = Ok ((out, ss'), w')
      /\ ticks w' = (ticks w + 9)%nat
      /\ map Last_Update (rows (cell_data ss'))
         = map (fun k => clock w (ticks w + k)%nat) (seq 0 8)
      /\ last_update ss' = clock w (ticks w + 8)%nat)
  /\ (exists out ss' w',
         main (mkInputs true true sel) ss w = Ok ((out, ss'), w')
         /\ ticks w' = (ticks w + 18)%nat
         /\ map Last_Update (rows (cell_data ss'))
            = map (fun k => clock w (ticks w + 9 + k)%nat) (seq 0 8)
         /\ last_update ss' = clock w (ticks w + 17)%nat).
Proof.
  split.
  - destruct (returns_elim _ _ _ (main_click false sel ss w))
      as ([out ss'] & w' & E & ss1 & w1 & H1 & H2 & _).
    cbn [snd] in H2. destruct H2 as [-> ->].
    exists out, ss1, w1. split; [exact E|].
    destruct (fresh_clock _ _ _ H1) as (_ & Ht & Hm & Hu). auto.
  - destruct (returns_elim _ _ _ (main_click true sel ss w))
      as ([out ss'] & w' & E & ss1 & w1 & H1 & H2 & _).
    cbn [snd] in *. exists out, ss', w'. split; [exact E|].
    destruct (fresh_clock _ _ _ H1) as (Hc1 & Ht1 & _ & _).
    destruct (fresh_clock _ _ _ H2) as (_ & Ht2 & Hm2 & Hu2).
    rewrite Ht2, Hm2, Hu2, Hc1, Ht1.
    split; [lia|]. split; [reflexivity|]. f_equal. lia.
Qed.



(* ================================================================== *)
(** * The grid of cards *)

(** One column of one line of the grid, as in the body of the inner
    loop. *)
Lemma slot_inside (cells : list Cell) (i j : Z) (c : Cell) :
  0 <= i + j ->
  nth_error cells (Z.to_nat (i + j)) = Some c ->
  grid_slot (frame cells) i j
  = Ok [ (i, j, card_of c) ].
Proof.
  intros Hpos Hnth.
  assert (Hlt : (Z.to_nat (i + j) < List.length cells)%nat)
    by (apply nth_error_Some; congruence).
  unfold grid_slot, len, frame at 1. cbn [rows].
  destruct (i + j <? Z.of_nat (List.length cells)) eqn:E;
    [|apply Z.ltb_ge in E; lia].
  unfold iloc, len, frame. cbn [rows].
  destruct (i + j <? 0) eqn:E0; [apply Z.ltb_lt in E0; lia|].
  rewrite E. replace (0 <=? i + j) with true by (symmetry; apply Z.leb_le; lia).
  cbn [andb]. rewrite Hnth. reflexivity.
Qed.

Lemma slot_outside (cells : list Cell) (i j : Z) :
  Z.of_nat (List.length cells) <= i + j ->
  grid_slot (frame cells) i j
  = Ok [].
Proof.
  intros H. unfold grid_slot, len, frame at 1. cbn [rows].
  destruct (i + j <? Z.of_nat (List.length cells)) eqn:E;
    [apply Z.ltb_lt in E; lia | reflexivity].
Qed.

Lemma grid_position (m j : Z) :
  0 <= j < 4 -> 4 * ((4 * m + j) / 4) = 4 * m /\ (4 * m + j) mod 4 = j.
Proof.
  intros Hj. rewrite Z.add_comm, (Z.mul_comm 4 m).
  rewrite Z.div_add, Z.mod_add by lia.
  rewrite Z.div_small, Z.mod_small by lia. lia.
Qed.

Lemma lines_after_four (r : nat) :
  lines_of (4 + r) = S (lines_of r).
Proof.
  unfold lines_of.
  replace (0 - Z.of_nat (4 + r)) with ((0 - Z.of_nat r) + (-1) * 4) by lia.
  rewrite Z.div_add by lia.
  assert ((0 - Z.of_nat r) / 4 <= 0)
    by (apply Z.div_le_upper_bound; lia).
  lia.
Qed.

Lemma card_grid_lines (df : DataFrame) :
  card_grid df
  = for_each (grid_line df)
             (map (fun k => 0 + 4 * Z.of_nat k) (seq 0 (lines_of (len df)))).
Proof. reflexivity. Qed.

(** The column [j] of the line that starts after the rows [pre] holds the
    card of the [j]-th of the remaining rows, if there is one. *)
Lemma grid_slot_at (pre rest : list Cell) (m j : nat) :
  List.length pre = (4 * m)%nat ->
  grid_slot (frame (pre ++ rest)) (0 + 4 * Z.of_nat m) (Z.of_nat j)
  = Ok (match nth_error rest j with
        | Some c => [ (4 * Z.of_nat m, Z.of_nat j, card_of c) ]
        | None => []
        end).
Proof.
  intros Hpre. rewrite Z.add_0_l.
  assert (Hk : Z.to_nat (4 * Z.of_nat m + Z.of_nat j)
               = (List.length pre + j)%nat) by lia.
  destruct (nth_error rest j) as [c|] eqn:E.
  - apply slot_inside; [lia|].
    rewrite Hk, nth_error_app2 by lia.
    replace (List.length pre + j - List.length pre)%nat with j by lia.
    exact E.
  - apply slot_outside. apply nth_error_None in E.
    rewrite length_app. lia.
Qed.

Lemma pos_line (m j : nat) :
  (j < 4)%nat ->
  4 * (Z.of_nat (4 * m + j) / 4) = 4 * Z.of_nat m
  /\ Z.of_nat (4 * m + j) mod 4 = Z.of_nat j.
Proof.
  intros Hj.
  replace (Z.of_nat (4 * m + j)) with (4 * Z.of_nat m + Z.of_nat j) by lia.
  apply grid_position. lia.
Qed.

Lemma placed_head (m j : nat) (c : Cell) (cells : list Cell) :
  (j < 4)%nat ->
  placed (4 * m + j) (c :: cells)
  = (4 * Z.of_nat m, Z.of_nat j, card_of c) :: placed (S (4 * m + j)) cells.
Proof.
  intros Hj. cbn [placed].
  destruct (pos_line m j Hj) as [-> ->]. reflexivity.
Qed.

Ltac place_at m j :=
  match goal with
  | |- context [placed ?k (_ :: _)] =>
      replace k with (4 * m + j)%nat by lia; rewrite placed_head by lia
  end.

(** The cards of up to four rows that start a line. *)
Lemma placed_line (m : nat) (chunk : list Cell) :
  (List.length chunk <= 4)%nat ->
  placed (4 * m) chunk
  = ((match nth_error chunk 0 with
      | Some c => [ (4 * Z.of_nat m, 0, card_of c) ] | None => [] end)
     ++ (match nth_error chunk 1 with
         | Some c => [ (4 * Z.of_nat m, 1, card_of c) ] | None => [] end)
     ++ (match nth_error chunk 2 with
         | Some c => [ (4 * Z.of_nat m, 2, card_of c) ] | None => [] end)
     ++ (match nth_error chunk 3 with
         | Some c => [ (4 * Z.of_nat m, 3, card_of c) ] | None => [] end))%list.
Proof.
  intros Hlen.
  destruct chunk as [|a [|b [|c [|d [|e chunk]]]]];
    cbn [nth_error app]; try reflexivity.
  - place_at m 0%nat. reflexivity.
  - place_at m 0%nat. place_at m 1%nat. reflexivity.
  - place_at m 0%nat. place_at m 1%nat. place_at m 2%nat. reflexivity.
  - place_at m 0%nat. place_at m 1%nat. place_at m 2%nat. place_at m 3%nat.
    reflexivity.
  - cbn [List.length] in Hlen. lia.
Qed.

Lemma placed_app (k : nat) (l1 l2 : list Cell) :
  placed k (l1 ++ l2) = (placed k l1 ++ placed (k + List.length l1) l2)%list.
Proof.
  revert k. induction l1 as [|c l1 IH]; intros k; cbn [app placed List.length].
  - now rewrite Nat.add_0_r.
  - rewrite IH. do 3 f_equal. lia.
Qed.

Lemma grid_line_at (pre rest : list Cell) (m : nat) :
  List.length pre = (4 * m)%nat ->
  grid_line (frame (pre ++ rest)) (0 + 4 * Z.of_nat m)
  = Ok (placed (4 * m) (firstn 4 rest)).
Proof.
  intros Hpre. unfold grid_line. cbn [for_each].
  pose proof (grid_slot_at pre rest m 0 Hpre) as H0.
  pose proof (grid_slot_at pre rest m 1 Hpre) as H1.
  pose proof (grid_slot_at pre rest m 2 Hpre) as H2.
  pose proof (grid_slot_at pre rest m 3 Hpre) as H3.
  change (Z.of_nat 0) with 0 in H0. change (Z.of_nat 1) with 1 in H1.
  change (Z.of_nat 2) with 2 in H2. change (Z.of_nat 3) with 3 in H3.
  rewrite H0, H1, H2, H3. cbn [rbind].
  rewrite placed_line by (rewrite length_firstn; lia).
  destruct rest as [|a [|b [|c [|d rest]]]]; cbn [firstn nth_error app];
    reflexivity.
Qed.

Lemma card_grid_from (n : nat) :
  forall rest, (List.length rest <= n)%nat ->
  forall pre m, List.length pre = (4 * m)%nat ->
    for_each (grid_line (frame (pre ++ rest)))
             (map (fun k => 0 + 4 * Z.of_nat k)
                  (seq m (lines_of (List.length rest))))
    = Ok (placed (4 * m) rest).
Proof.
  induction n as [|n IH]; intros rest Hn pre m Hpre.
  - destruct rest; [reflexivity | cbn in Hn; lia].
  - destruct rest as [|a [|b [|c [|d rest']]]].
    + reflexivity.
    + change (lines_of (List.length [a])) with 1%nat.
      cbn [seq map for_each]. rewrite grid_line_at by exact Hpre.
      cbn [rbind firstn]. now rewrite app_nil_r.
    + change (lines_of (List.length [a; b])) with 1%nat.
      cbn [seq map for_each]. rewrite grid_line_at by exact Hpre.
      cbn [rbind firstn]. now rewrite app_nil_r.
    + change (lines_of (List.length [a; b; c])) with 1%nat.
      cbn [seq map for_each]. rewrite grid_line_at by exact Hpre.
      cbn [rbind firstn]. now rewrite app_nil_r.
    + change (List.length (a :: b :: c :: d :: rest'))
        with (4 + List.length rest')%nat.
      rewrite lines_after_four. cbn [seq map for_each].
      rewrite grid_line_at by exact Hpre. cbn [rbind firstn].
      change (a :: b :: c :: d :: rest') with ([a; b; c; d] ++ rest')%list.
      rewrite app_assoc.
      rewrite (IH rest' ltac:(cbn [List.length] in Hn; lia)
                  (pre ++ [a; b; c; d])%list (S m))
        by (rewrite length_app; cbn [List.length]; lia).
      cbn [rbind]. rewrite (placed_app (4 * m) [a; b; c; d] rest').
      cbn [List.length]. do 3 f_equal. lia.
Qed.

(** X10. The nested loops that lay out the cards of a frame with the ten
    columns raise nothing, [iloc] never leaves the frame, and every row
    gets exactly one card, in row order: the row at position [k] in
    column [k mod 4] of the line that starts at the multiple of four
    below [k].  The cards are those [cell_cards] lists. *)
Theorem card_grid_places_every_row (cells : list Cell) :
  card_grid (frame cells) = Ok (placed 0 cells)
  /\ List.length (placed 0 cells) = List.length cells
  /\ cell_cards (frame cells) = Ok (map snd (placed 0 cells))
  /\ forall k c,
      nth_error cells k = Some c ->
      nth_error (placed 0 cells) k
      = Some (4 * (Z.of_nat k / 4), Z.of_nat k mod 4, card_of c).
Proof.
  assert (Hnth : forall l k0 k c,
             nth_error l k = Some c ->
             nth_error (placed k0 l) k
             = Some (4 * (Z.of_nat (k0 + k) / 4), Z.of_nat (k0 + k) mod 4,
                     card_of c)).
  { induction l as [|c0 l IH]; intros k0 k c Hk; [destruct k; discriminate|].
    destruct k as [|k]; cbn [nth_error placed] in *.
    - injection Hk as <-. now rewrite Nat.add_0_r.
    - rewrite (IH (S k0) k c Hk).
      replace (S k0 + k)%nat with (k0 + S k)%nat by lia. reflexivity. }
  assert (Hlen : forall l k0, List.length (placed k0 l) = List.length l).
  { induction l; intros k0; cbn [placed List.length]; [reflexivity|].
    now rewrite IHl. }
  assert (Hsnd : forall l k0, map snd (placed k0 l) = map card_of l).
  { induction l; intros k0; cbn [placed map snd]; [reflexivity|].
    now rewrite IHl. }
  split; [|split; [apply Hlen|split]].
  - rewrite card_grid_lines. unfold len, frame at 2. cbn [rows].
    exact (card_grid_from (List.length cells) cells (le_n _) [] 0%nat eq_refl).
  - rewrite cell_cards_frame, Hsnd. reflexivity.
  - intros k c Hk. exact (Hnth cells 0%nat k c Hk).
Qed.

(* ================================================================== *)
(** * Further properties of the process filter *)

(** X11. On a frame with the ten columns the process filter raises
    nothing and keeps the columns; with a selection it keeps, in row
    order, exactly the rows whose process is selected, and while the
    widget is untouched it keeps every row. *)
Theorem process_filter_rows (cells : list Cell) (chosen : list string) :
  (exists fdf,
      process_filter (frame cells) (Some chosen) = Ok fdf
      /\ columns fdf = cell_columns
      /\ rows fdf = filter (is_selected chosen) cells
      /\ (forall c, In c (rows fdf) <-> In c cells /\ In (Process c) chosen)
      /\ (len fdf <= len (frame cells))%nat)
  /\ process_filter (frame cells) None = Ok (frame cells).
Proof.
  split.
  - exists (frame (filter (is_selected chosen) cells)).
    split; [apply process_filter_frame|].
    split; [reflexivity|]. split; [reflexivity|]. split.
    + intros c. cbn [rows frame]. rewrite filter_In.
      unfold is_selected. now rewrite existsb_eqb_In.
    + unfold len. cbn [rows frame]. apply filter_length_le.
  - rewrite process_filter_frame. fold (shown_cells cells None).
    now rewrite shown_cells_default.
Qed.

(** X12. When no row has a selected process, as with an empty selection,
    nothing is displayed and nothing raises: the filtered frame has no
    rows, no card is laid out, and the alert section is the all-normal
    banner alone, whatever the temperatures, capacities and statuses of
    the hidden rows. *)
Theorem process_filter_no_match (cells : list Cell) (chosen : list string) :
  (forall c, In c cells -> ~ In (Process c) chosen) ->
  process_filter (frame cells) (Some chosen) = Ok (frame [])
  /\ cell_cards (frame []) = Ok []
  /\ card_grid (frame []) = Ok []
  /\ system_alerts (frame []) = Ok [ St_success all_normal_msg ].
Proof.
  intros Hno. split; [|repeat split; reflexivity].
  rewrite process_filter_frame. do 2 f_equal.
  apply filter_none, Forall_forall. intros c Hc.
  unfold selected_processes, multiselect, is_selected.
  destruct (existsb (String.eqb (Process c)) chosen) eqn:E; [|reflexivity].
  apply existsb_eqb_In in E. exfalso. exact (Hno c Hc E).
Qed.

Lemma process_filter_no_match_witness :
  process_filter (frame cc_cells) (Some ["Fast"]) = Ok (frame [])
  /\ cell_cards (frame []) = Ok []
  /\ card_grid (frame []) = Ok []
  /\ system_alerts (frame []) = Ok [ St_success all_normal_msg ].
Proof.
  apply (process_filter_no_match cc_cells ["Fast"]).
  intros c Hc [H | []]. cbn [In cc_cells] in Hc.
  repeat (destruct Hc as [<- | Hc]; [discriminate H|]). exact Hc.
Defined.

(* ================================================================== *)
(** * Colours and the gauge *)

Ltac by_string_cases :=
  repeat match goal with
         | |- context [(?s =? ?t)%string] =>
             destruct (String.eqb_spec s t); subst
         end.

(** X13. The colour tables fall back on grey: a status other than
    Charging, Complete and Error, Idle included, is drawn in the grey
    "#6c757d", and so is a health state outside the four known ones,
    none of which is grey; the four known statuses have four different
    colours, and so have the four health states.  The table highlight is
    empty exactly for a status other than Charging, Complete and Error. *)
Theorem color_tables :
  (forall s, get_status_color s = "#6c757d"
             <-> s <> "Charging" /\ s <> "Complete" /\ s <> "Error")
  /\ (forall h, get_health_color h = "#6c757d" <-> ~ In h health_states)
  /\ (forall s1 s2,
         In s1 ["Charging"; "Complete"; "Idle"; "Error"] ->
         In s2 ["Charging"; "Complete"; "Idle"; "Error"] ->
         get_status_color s1 = get_status_color s2 -> s1 = s2)
  /\ (forall h1 h2,
         In h1 health_states -> In h2 health_states ->
         get_health_color h1 = get_health_color h2 -> h1 = h2)
  /\ (forall v, highlight_status v = ""
                <-> v <> "Charging" /\ v <> "Complete" /\ v <> "Error").
Proof.
  split; [|split; [|split; [|split]]].
  - intros s. unfold get_status_color. by_string_cases;
      split; intros H; try discriminate; try reflexivity;
      try (repeat split; congruence); try (destruct H as (? & ? & ?); congruence).
  - intros h. unfold get_health_color, health_states. cbn [In].
    by_string_cases; split; intros H; try discriminate; try reflexivity;
      try tauto; try (intros [? | [? | [? | [? | []]]]]; congruence).
  - intros s1 s2 H1 H2. cbn [In] in H1, H2.
    destruct H1 as [<- | [<- | [<- | [<- | []]]]];
      destruct H2 as [<- | [<- | [<- | [<- | []]]]];
      cbn; intros E; try reflexivity; discriminate E.
  - intros h1 h2 H1 H2. unfold health_states in *. cbn [In] in H1, H2.
    destruct H1 as [<- | [<- | [<- | [<- | []]]]];
      destruct H2 as [<- | [<- | [<- | [<- | []]]]];
      cbn; intros E; try reflexivity; discriminate E.
  - intros v. unfold highlight_status. by_string_cases;
      split; intros H; try discriminate; try reflexivity;
      try (repeat split; congruence); try (destruct H as (? & ? & ?); congruence).
Qed.



(* ================================================================== *)
(** * Auto-refresh and the scope of the alerts *)

(** X15. With auto-refresh on, a run does not depend on the session it
    starts from: whatever is stored, and whether or not the button was
    clicked, the stored snapshot is replaced before anything is shown. *)
Theorem main_auto_refresh_ignores_session (clicked : bool)
        (sel : option (list string)) (ss1 ss2 : Session) (w : World) :
  main (mkInputs true clicked sel) ss1 w = main (mkInputs true clicked sel) ss2 w.
Proof.
  assert (Hret : forall (A B : Type) (a : A) (f : A -> M B) w0,
             bind (ret a) f w0 = f a w0) by reflexivity.
  unfold main. cbn [refresh_clicked auto_refresh process_selection].
  destruct clicked.
  - reflexivity.
  - rewrite !Hret, !orb_true_r. reflexivity.
Qed.

(** X16. The three alert subsets are taken from the filtered rows only: a
    row is listed by the over-temperature, low-capacity or error alert
    exactly when it is a row of the snapshot whose process is selected
    and which is, respectively, above 40 degrees, below 20 percent, in
    status Error.  One row can be in all three. *)
Theorem alert_subsets_scope (cells : list Cell) (chosen : list string) :
  exists fdf high low err,
    process_filter (frame cells) (Some chosen) = Ok fdf
    /\ high_temp_cells fdf = Ok high
    /\ low_capacity_cells fdf = Ok low
    /\ error_cells fdf = Ok err
    /\ (forall c, In c (rows high)
                  <-> In c cells /\ In (Process c) chosen
                      /\ 40 < Temperature_C c)
    /\ (forall c, In c (rows low)
                  <-> In c cells /\ In (Process c) chosen
                      /\ Capacity_pct c < 20)
    /\ (forall c, In c (rows err)
                  <-> In c cells /\ In (Process c) chosen
                      /\ Status c = "Error").
Proof.
  set (shown := filter (is_selected chosen) cells).
  exists (frame shown), (frame (filter is_hot shown)),
    (frame (filter is_low shown)), (frame (filter is_error shown)).
  split; [apply process_filter_frame|].
  split; [apply high_temp_cells_frame|].
  split; [apply low_capacity_cells_frame|].
  split; [apply error_cells_frame|].
  assert (Hshown : forall c, In c shown <-> In c cells /\ In (Process c) chosen).
  { intros c. unfold shown. rewrite filter_In. unfold is_selected.
    now rewrite existsb_eqb_In. }
  cbn [rows frame]. split; [|split]; intros c; rewrite filter_In, Hshown.
  - unfold is_hot. rewrite Z.gtb_lt. tauto.
  - unfold is_low. rewrite Z.ltb_lt. tauto.
  - unfold is_error. rewrite String.eqb_eq. tauto.
Qed.
